(** * telemetry_channel: the timing wrapper around Node's TracingChannel

    A shallow embedding of [src/index.ts]: the [TelemetryChannel] class
    ([subscribe], [unsubscribe], [traceSync]) and the factory
    [telemetryChannel], together with a model of the part of
    [node:diagnostics_channel] the class delegates to.

    JavaScript objects live in a heap indexed by references, so that the
    context object handed to [traceSync] is one shared, mutable object: the
    traced function, the subscribers, the bus and the wrapper all write to
    the same location. *)

From Stdlib Require Import ZArith List Lia.
From stdpp Require Import base option gmap strings list.

Open Scope string_scope.
Open Scope list_scope.
Open Scope Z_scope.

(** ** Values, objects and the store *)

Definition loc := positive.

(** The JavaScript values the wrapper can meet.  [VNumber] carries the
    integer-valued numbers; [VTypeError] is an error raised by the runtime
    itself, errors thrown by user code are ordinary values. *)
Inductive value : Type :=
| VUndefined
| VNull
| VBoolean (b : bool)
| VNumber (n : Z)
| VNaN
| VBigInt (n : Z)
| VString (s : string)
| VObject (l : loc)
| VTypeError (msg : string).

(** What user code can observe and change: the heap of plain objects and the
    reading [process.hrtime.bigint()] would give at this instant. *)
Record store := Store {
  heap : gmap loc (gmap string value);
  hrtime : Z
}.

(** The five channels of a TracingChannel ([traceEvents] in Node). *)
Inductive phase := start | end_ | asyncStart | asyncEnd | error.

#[global] Instance phase_eq_dec : EqDecision phase.
Proof. solve_decision. Defined.

Definition traceEvents : list phase := [start; end_; asyncStart; asyncEnd; error].

Definition phase_name (p : phase) : string :=
  match p with
  | start => "start"
  | end_ => "end"
  | asyncStart => "asyncStart"
  | asyncEnd => "asyncEnd"
  | error => "error"
  end.

(** History of one run, kept beside the store and never read by the code:
    every [publish] of the bus with the context object as it was when the
    call started, every application of the traced function, and every entry
    into the [finally] block of [trackedFn]. *)
Inductive event :=
| Published (p : phase) (data : value) (snapshot : gmap string value)
| Applied (thisArg : value) (args : list value)
| Finally (newContext : loc).

Record machine := Machine {
  mstore : store;
  trace : list event
}.

(** ** Computations that may throw *)

Inductive completion (A : Type) :=
| Normal (a : A)
| Throw (e : value).
Arguments Normal {A} a.
Arguments Throw {A} e.

Definition M (A : Type) : Type := machine -> completion A * machine.

Definition ret {A} (a : A) : M A := fun m => (Normal a, m).

Definition bind {A B} (c : M A) (k : A -> M B) : M B :=
  fun m =>
    match c m with
    | (Normal a, m') => k a m'
    | (Throw e, m') => (Throw e, m')
    end.

Definition throw {A} (e : value) : M A := fun m => (Throw e, m).

Notation "'let*' x ':=' c1 'in' c2" := (bind c1 (fun x => c2))
  (at level 10, x name, c1 at level 100, c2 at level 200).
Notation "c1 '>>' c2" := (bind c1 (fun _ => c2))
  (at level 100, c2 at level 200, right associativity).

(** [try { body } catch (err) { handler err }] *)
Definition try_catch {A} (body : M A) (handler : value -> M A) : M A :=
  fun m =>
    match body m with
    | (Normal a, m') => (Normal a, m')
    | (Throw e, m') => handler e m'
    end.

(** [try { body } finally { fin }]: the block [fin] runs on both exits; when
    it completes normally the completion of [body] stands, when it throws
    its error replaces it. *)
Definition try_finally {A} (body : M A) (fin : M unit) : M A :=
  fun m =>
    match body m with
    | (r, m') =>
        match fin m' with
        | (Normal _, m'') => (r, m'')
        | (Throw e, m'') => (Throw e, m'')
        end
    end.

Definition log (e : event) : M unit :=
  fun m => (Normal tt, Machine (mstore m) (trace m ++ [e])).

(** ** Object operations *)

Definition object_at (s : store) (l : loc) : gmap string value :=
  default ∅ (heap s !! l).

Definition read_field (s : store) (l : loc) (k : string) : option value :=
  object_at s l !! k.

Definition write_field (s : store) (l : loc) (k : string) (v : value) : store :=
  Store (<[l := <[k := v]> (object_at s l)]> (heap s)) (hrtime s).

(** [o.k]: an absent property reads as [undefined]. *)
Definition get_field (l : loc) (k : string) : M value :=
  fun m => (Normal (default VUndefined (read_field (mstore m) l k)), m).

(** [o.k = v] on a plain object. *)
Definition set_field (l : loc) (k : string) (v : value) : M unit :=
  fun m => (Normal tt, Machine (write_field (mstore m) l k v) (trace m)).

(** [{}]: a new object at an unused reference. *)
Definition new_object : M loc :=
  fun m =>
    let l := fresh (dom (heap (mstore m))) in
    (Normal l, Machine (Store (<[l := ∅]> (heap (mstore m))) (hrtime (mstore m))) (trace m)).

(** [context ?? {}] *)
Definition nullish_or_new (context : option loc) : M loc :=
  match context with
  | Some l => ret l
  | None => new_object
  end.

(** [Object.assign(target, source)] for a source object literal given by its
    properties in order; returns the target itself. *)
Fixpoint Object_assign (target : loc) (source : list (string * value)) : M loc :=
  match source with
  | [] => ret target
  | (k, v) :: rest => set_field target k v >> Object_assign target rest
  end.

(** [process.hrtime.bigint()] *)
Definition process_hrtime_bigint : M value :=
  fun m => (Normal (VBigInt (hrtime (mstore m))), m).

(** The binary [-].  Two BigInts subtract exactly (BigInt is unbounded, the
    result may be negative); a BigInt mixed with a value of another type is a
    TypeError; two integer numbers subtract.  The remaining operand pairs go
    through ToNumber, which is not modelled: they are never reached from
    [traceSync], whose left operand is a clock reading. *)
Definition js_minus (a b : value) : M value :=
  match a, b with
  | VBigInt x, VBigInt y => ret (VBigInt (x - y))
  | VBigInt _, _ | _, VBigInt _ =>
      throw (VTypeError "Cannot mix BigInt and other types, use explicit conversions")
  | VNumber x, VNumber y => ret (VNumber (x - y))
  | _, _ => ret VNaN
  end.

(** A JavaScript function as the wrapper sees it: it receives [this] and the
    arguments, runs on the store and returns or throws. *)
Definition jsfun := value -> list value -> store -> completion value * store.

(** [fn.apply(thisArg, args)] *)
Definition apply (fn : jsfun) (thisArg : value) (args : list value) : M value :=
  fun m =>
    match fn thisArg args (mstore m) with
    | (r, s') => (r, Machine s' (trace m ++ [Applied thisArg args]))
    end.

(** ** The bus: node:diagnostics_channel

    The wrapper delegates to Node's [TracingChannel]; this module follows
    Node's [lib/diagnostics_channel.js].  A subscriber is a function
    [onMessage(data, name)]; an error it raises is not propagated by
    [publish] (Node rethrows it on a later tick), so a subscriber is a
    transformer of the store.  Function identity, which [unsubscribe]
    compares, is the field [hid].  Bound stores ([bindStore]) are left out. *)
Module diagnostics_channel.

Record handler := Handler {
  hid : nat;
  onMessage : value -> string -> store -> store
}.

(** [TracingChannelSubscribers]: one optional function per phase. *)
Definition TracingChannelSubscribers := phase -> option handler.

(** The subscriber arrays of the five channels of one name. *)
Definition channels := phase -> list handler.

(** The module's state: the channels by name (a name never subscribed to
    has five empty channels), and whether this Node version returns early
    from [traceSync] when no channel of the name has a subscriber. *)
Record t := Bus {
  registry : gmap string channels;
  returns_early : bool
}.

Definition no_subscribers : channels := fun _ => [].

Definition lookup (b : t) (name : string) : channels :=
  default no_subscribers (registry b !! name).

Definition channel_name (name : string) (p : phase) : string :=
  ("tracing:" ++ name ++ ":" ++ phase_name p)%string.

(** [tracingChannel(nameOrChannels)]: a string, the empty one like any
    other, names the five channels.  What Node answers to a value that is no
    string (the channels an object holds, or an error, by its own validation)
    is not decided here: it is the parameter [otherwise]. *)
Definition tracingChannel (otherwise : value -> completion string)
    (nameOrChannels : value) : completion string :=
  match nameOrChannels with
  | VString name => Normal name
  | v => otherwise v
  end.

Definition update (cs : channels) (p : phase) (l : list handler) : channels :=
  fun q => if decide (q = p) then l else cs q.

(** [channel.subscribe(onMessage)]: push. *)
Definition Channel_subscribe (l : list handler) (h : handler) : list handler :=
  l ++ [h].

(** [channel.unsubscribe(onMessage)]: remove the first occurrence; [None]
    when [indexOf] finds none. *)
Fixpoint remove_first (h : handler) (l : list handler) : option (list handler) :=
  match l with
  | [] => None
  | x :: rest =>
      if decide (hid x = hid h) then Some rest
      else option_map (cons x) (remove_first h rest)
  end.

Definition subscribe_step (handlers : TracingChannelSubscribers)
    (cs : channels) (p : phase) : channels :=
  match handlers p with
  | None => cs
  | Some h => update cs p (Channel_subscribe (cs p) h)
  end.

(** [tracingChannel.subscribe(handlers)] *)
Definition subscribe (b : t) (name : string)
    (handlers : TracingChannelSubscribers) : t :=
  Bus (<[name := fold_left (subscribe_step handlers) traceEvents (lookup b name)]>
         (registry b))
      (returns_early b).

Definition unsubscribe_step (handlers : TracingChannelSubscribers)
    (acc : bool * channels) (p : phase) : bool * channels :=
  match handlers p with
  | None => acc
  | Some h =>
      match remove_first h (snd acc p) with
      | Some l' => (fst acc, update (snd acc) p l')
      | None => (false, snd acc)
      end
  end.

(** [tracingChannel.unsubscribe(handlers)]: [done] starts true and is
    cleared by every removal that fails. *)
Definition unsubscribe (b : t) (name : string)
    (handlers : TracingChannelSubscribers) : bool * t :=
  let r := fold_left (unsubscribe_step handlers) traceEvents (true, lookup b name) in
  (fst r, Bus (<[name := snd r]> (registry b)) (returns_early b)).

Definition hasSubscribers (cs : channels) : bool :=
  existsb (fun p => match cs p with [] => false | _ => true end) traceEvents.

Definition deliver (name : string) (data : value) (subs : list handler)
    (s : store) : store :=
  fold_left (fun s h => onMessage h data name s) subs s.

(** [channel.publish(data)] *)
Definition publish (name : string) (cs : channels) (p : phase) (ctx : loc) : M unit :=
  fun m =>
    (Normal tt,
     Machine (deliver (channel_name name p) (VObject ctx) (cs p) (mstore m))
             (trace m ++ [Published p (VObject ctx) (object_at (mstore m) ctx)])).

(** [tracingChannel.traceSync(fn, context = {}, thisArg, ...args)] *)
Definition traceSync (b : t) (name : string)
    (fn : value -> list value -> M value)
    (context : option loc) (thisArg : value) (args : list value) : M value :=
  let cs := lookup b name in
  if returns_early b && negb (hasSubscribers cs) then fn thisArg args
  else
    let* context := nullish_or_new context in
    publish name cs start context >>
    try_finally
      (try_catch
         (let* result := fn thisArg args in
          set_field context "result" result >>
          ret result)
         (fun err =>
            set_field context "error" err >>
            publish name cs error context >>
            throw err))
      (publish name cs end_ context).

End diagnostics_channel.

(** ** The wrapper: src/index.ts *)

Record TelemetryChannel := {
  name : value;
  tracedChannel : string
}.

(** [constructor(public name) { this.tracedChannel = tracingChannel(name) }]:
    an error of [tracingChannel] leaves the constructor as it is raised. *)
Definition TelemetryChannel_new (otherwise : value -> completion string)
    (name : value) : completion TelemetryChannel :=
  match diagnostics_channel.tracingChannel otherwise name with
  | Normal tc => Normal {| name := name; tracedChannel := tc |}
  | Throw e => Throw e
  end.

(** [telemetryChannel(name)]; [name] is declared a string, at run time any
    value can arrive. *)
Definition telemetryChannel (otherwise : value -> completion string)
    (name : value) : completion TelemetryChannel :=
  TelemetryChannel_new otherwise name.

Definition subscribe (self : TelemetryChannel) (b : diagnostics_channel.t)
    (subscribers : diagnostics_channel.TracingChannelSubscribers)
    : diagnostics_channel.t :=
  diagnostics_channel.subscribe b (tracedChannel self) subscribers.

Definition unsubscribe (self : TelemetryChannel) (b : diagnostics_channel.t)
    (subscribers : diagnostics_channel.TracingChannelSubscribers)
    : bool * diagnostics_channel.t :=
  diagnostics_channel.unsubscribe b (tracedChannel self) subscribers.

(** The [finally] block of [trackedFn]. *)
Definition stamp_end (newContext : loc) : M unit :=
  log (Finally newContext) >>
  let* t := process_hrtime_bigint in
  set_field newContext "endMonotonicTime" t >>
  let* e := get_field newContext "endMonotonicTime" in
  let* s := get_field newContext "startMonotonicTime" in
  let* d := js_minus e s in
  set_field newContext "duration" d.

(** [trackedFn], closed over [fn], [thisArg] and [newContext]: it ignores its
    own [this] and applies [fn] to the captured [thisArg]. *)
Definition trackedFn (fn : jsfun) (thisArg : value) (newContext : loc)
    (this : value) (args : list value) : M value :=
  try_finally (apply fn thisArg args) (stamp_end newContext).

Definition traceSync (self : TelemetryChannel) (b : diagnostics_channel.t)
    (fn : jsfun) (context : option loc) (thisArg : value) (args : list value)
    : M value :=
  let* target := nullish_or_new context in
  let* t := process_hrtime_bigint in
  let* newContext := Object_assign target [("startMonotonicTime", t)] in
  diagnostics_channel.traceSync b (tracedChannel self)
    (trackedFn fn thisArg newContext) (Some newContext) thisArg args.

(** A tracing method of the class, as a caller applies it. *)
Definition entry_point : Type :=
  TelemetryChannel -> diagnostics_channel.t ->
  jsfun -> option loc -> value -> list value -> M value.

(** The tracing methods the class body declares, by name.  [subscribe] and
    [unsubscribe] are the other two methods of the class; the README lists
    [tracePromise] and [traceCallback] as still to be added. *)
Definition tracing_methods : list (string * entry_point) :=
  [("traceSync", traceSync)].

Definition tracing_method (method : string) : option entry_point :=
  option_map snd
    (find (fun entry => String.eqb (fst entry) method) tracing_methods).

(** [self[method](fn, context, thisArg, ...args)]: a method the class does
    not have is [undefined], and calling it is a TypeError. *)
Definition call_method (method : string) : entry_point :=
  fun self b fn context thisArg args =>
    match tracing_method method with
    | Some f => f self b fn context thisArg args
    | None => throw (VTypeError (method ++ " is not a function"))
    end.

(** ** The stages of one [traceSync] run

    The stores a run goes through, as functions of its inputs.  Lemma
    [traceSync_run] shows that [traceSync] computes exactly these. *)

Definition as_bigint (v : option value) : option Z :=
  match v with
  | Some (VBigInt n) => Some n
  | _ => None
  end.

Abbreviation startMonotonicTime := "startMonotonicTime" (only parsing).
Abbreviation endMonotonicTime := "endMonotonicTime" (only parsing).
Abbreviation duration := "duration" (only parsing).

Section Stages.

Variable self : TelemetryChannel.
Variable b : diagnostics_channel.t.
Variable fn : jsfun.
Variable context : option loc.
Variable thisArg : value.
Variable args : list value.
Variable s0 : store.

(** The object every phase receives: the caller's, or the new [{}]. *)
Definition newContext_of : loc :=
  match context with
  | Some l => l
  | None => fresh (dom (heap s0))
  end.

(** After [Object.assign(context ?? {}, { startMonotonicTime })]. *)
Definition store_stamped : store :=
  write_field
    match context with
    | Some _ => s0
    | None => Store (<[newContext_of := ∅]> (heap s0)) (hrtime s0)
    end
    newContext_of startMonotonicTime (VBigInt (hrtime s0)).

Definition subscribers : diagnostics_channel.channels :=
  diagnostics_channel.lookup b (tracedChannel self).

(** Whether the bus publishes at all on this run. *)
Definition publishes : bool :=
  negb (diagnostics_channel.returns_early b
        && negb (diagnostics_channel.hasSubscribers subscribers)).

Definition deliver_to (p : phase) (s : store) : store :=
  diagnostics_channel.deliver
    (diagnostics_channel.channel_name (tracedChannel self) p)
    (VObject newContext_of) (subscribers p) s.

(** When [fn] is entered: after the start subscribers, if any ran. *)
Definition store_at_call : store :=
  if publishes then deliver_to start store_stamped else store_stamped.

Definition fn_completion : completion value := fst (fn thisArg args store_at_call).

(** When [fn] has returned or thrown. *)
Definition store_at_exit : store := snd (fn thisArg args store_at_call).

Definition start_at_exit : option Z :=
  as_bigint (read_field store_at_exit newContext_of startMonotonicTime).

(** After the [finally] block of [trackedFn]. *)
Definition store_finally : store :=
  let s := write_field store_at_exit newContext_of endMonotonicTime
             (VBigInt (hrtime store_at_exit)) in
  match start_at_exit with
  | Some t0 => write_field s newContext_of duration (VBigInt (hrtime store_at_exit - t0))
  | None => s
  end.

(** How [trackedFn] completes. *)
Definition tracked_completion : completion value :=
  match start_at_exit with
  | Some _ => fn_completion
  | None => Throw (VTypeError "Cannot mix BigInt and other types, use explicit conversions")
  end.

(** The store the first completion event ([end] after a return, [error]
    after a throw) is published on. *)
Definition store_completed : store :=
  match tracked_completion with
  | Normal v => write_field store_finally newContext_of "result" v
  | Throw e => write_field store_finally newContext_of "error" e
  end.

(** The store the [end] event is published on. *)
Definition store_at_end : store :=
  match tracked_completion with
  | Normal _ => store_completed
  | Throw _ => deliver_to error store_completed
  end.

Definition final_store : store :=
  if publishes then deliver_to end_ store_at_end else store_finally.

Definition published (p : phase) (s : store) : event :=
  Published p (VObject newContext_of) (object_at s newContext_of).

(** The history one run adds. *)
Definition run_events : list event :=
  if publishes then
    [published start store_stamped; Applied thisArg args; Finally newContext_of]
    ++ match tracked_completion with
       | Normal _ => []
       | Throw _ => [published error store_completed]
       end
    ++ [published end_ store_at_end]
  else [Applied thisArg args; Finally newContext_of].

End Stages.

(** ** What user code is expected to respect

    The spec reserves the timing fields: callers and subscribers do not use
    them for data of their own.  The clock is monotonic: its reading does
    not go back while user code runs. *)

Definition timing_fields : list string :=
  [startMonotonicTime; endMonotonicTime; duration].

(** The fields written by the wrapper and by the bus. *)
Definition reserved_fields : list string :=
  timing_fields ++ ["result"; "error"].

(** [f] leaves field [k] of object [l] as it is. *)
Definition keeps (l : loc) (k : string) (f : store -> store) : Prop :=
  forall s, read_field (f s) l k = read_field s l k.

Definition monotonic (f : store -> store) : Prop :=
  forall s, hrtime s <= hrtime (f s).


Definition respects_timing (l : loc) (f : store -> store) : Prop :=
  monotonic f /\ forall k, In k timing_fields -> keeps l k f.

Definition fn_step (fn : jsfun) (thisArg : value) (args : list value)
    : store -> store :=
  fun s => snd (fn thisArg args s).

Definition handler_step (self : TelemetryChannel) (l : loc) (p : phase)
    (h : diagnostics_channel.handler) : store -> store :=
  diagnostics_channel.onMessage h (VObject l)
    (diagnostics_channel.channel_name (tracedChannel self) p).

(** [P] holds of the user code one run executes.  [phase_code P p]: of every
    subscriber of phase [p], applied to the context; [subscriber_code P]: of
    the subscribers of all five phases; [user_code P]: of these and of the
    traced function, applied to the receiver and the arguments. *)
Definition phase_code (P : loc -> (store -> store) -> Prop)
    (self : TelemetryChannel) (b : diagnostics_channel.t)
    (context : option loc) (s0 : store) (p : phase) : Prop :=
  forall h, In h (subscribers self b p) ->
    P (newContext_of context s0) (handler_step self (newContext_of context s0) p h).

Definition subscriber_code (P : loc -> (store -> store) -> Prop)
    (self : TelemetryChannel) (b : diagnostics_channel.t)
    (context : option loc) (s0 : store) : Prop :=
  forall p, phase_code P self b context s0 p.

Definition user_code (P : loc -> (store -> store) -> Prop)
    (self : TelemetryChannel) (b : diagnostics_channel.t) (fn : jsfun)
    (context : option loc) (thisArg : value) (args : list value) (s0 : store)
    : Prop :=
  P (newContext_of context s0) (fn_step fn thisArg args) /\
  subscriber_code P self b context s0.

(** Until the function is left nobody overwrites the [startMonotonicTime] of
    the context: neither the start subscribers nor the function. *)
Definition start_kept (self : TelemetryChannel) (b : diagnostics_channel.t)
    (fn : jsfun) (context : option loc) (thisArg : value) (args : list value)
    (s0 : store) : Prop :=
  keeps (newContext_of context s0) startMonotonicTime (fn_step fn thisArg args) /\
  phase_code (fun l => keeps l startMonotonicTime) self b context s0 start.

(** ** Reading the history *)

Definition is_Finally (e : event) : bool :=
  match e with Finally _ => true | _ => false end.

Definition is_Applied (e : event) : bool :=
  match e with Applied _ _ => true | _ => false end.

Definition is_Published (p : phase) (e : event) : bool :=
  match e with Published q _ _ => bool_decide (q = p) | _ => false end.

(** An [end] or an [error] event. *)
Definition is_completion_event (e : event) : bool :=
  is_Published end_ e || is_Published error e.

(** The context as an [end] or [error] subscriber must find it: started at
    [t0], ended at [t1], with the exact difference, which is not negative. *)
Definition stamped (t0 t1 : Z) (o : gmap string value) : Prop :=
  o !! startMonotonicTime = Some (VBigInt t0) /\
  o !! endMonotonicTime = Some (VBigInt t1) /\
  o !! duration = Some (VBigInt (t1 - t0)) /\
  0 <= t1 - t0.

(** Whether [h] is in a subscriber array. *)
Definition is_subscribed (h : diagnostics_channel.handler)
    (subs : list diagnostics_channel.handler) : bool :=
  existsb (fun x => bool_decide (diagnostics_channel.hid x = diagnostics_channel.hid h)) subs.

(** The subscriber array of phase [p] after [unsubscribe]: without the first
    occurrence of the handler supplied for [p], if there is one. *)
Definition without (handlers : diagnostics_channel.TracingChannelSubscribers)
    (cs : diagnostics_channel.channels) (p : phase)
    : list diagnostics_channel.handler :=
  match handlers p with
  | None => cs p
  | Some h => default (cs p) (diagnostics_channel.remove_first h (cs p))
  end.

(** ** The runs of the test suite *)

Definition my_channel : TelemetryChannel :=
  {| name := VString "my-channel"; tracedChannel := "my-channel" |}.

(** [(name) => `Hello ${name}`], called with a string or with nothing; it
    takes 40 ns. *)
Definition greet : jsfun :=
  fun _ args s =>
    match args with
    | VString n :: _ => (Normal (VString ("Hello " ++ n)), Store (heap s) (hrtime s + 40))
    | _ => (Normal (VString "Hello undefined"), Store (heap s) (hrtime s + 40))
    end.

(** [() => { throw new Error('supposed to happen') }]; it takes 25 ns. *)
Definition boom : jsfun :=
  fun _ _ s =>
    let err := fresh (dom (heap s)) in
    (Throw (VObject err),
     Store (heap (write_field s err "message" (VString "supposed to happen")))
           (hrtime s + 25)).

(** A start subscriber that leaves a mark on the context. *)
Definition mark_seen : diagnostics_channel.handler :=
  diagnostics_channel.Handler 1
    (fun data _ s =>
       match data with
       | VObject l => write_field s l "seen" (VBoolean true)
       | _ => s
       end).

Definition start_only : diagnostics_channel.TracingChannelSubscribers :=
  fun p => match p with start => Some mark_seen | _ => None end.

Definition my_bus : diagnostics_channel.t :=
  diagnostics_channel.Bus
    {[ "my-channel" := fun p => match p with start => [mark_seen] | _ => [] end ]}
    false.

(** The caller's context [{ id: 1 }] at reference 1. *)
Definition my_store : store :=
  Store {[ 1%positive := {[ "id" := VNumber 1 ]} ]} 1000.

Definition my_machine : machine := Machine my_store [].

(** A context left over from an earlier run. *)
Definition reused_store : store :=
  Store {[ 1%positive :=
             {[ startMonotonicTime := VBigInt 10;
                endMonotonicTime := VBigInt 17;
                duration := VBigInt 7 ]} ]} 1000.

Definition reused_machine : machine := Machine reused_store [].

(** What a test reads off one event: its phase and the fields asked for. *)
Definition observe (ks : list string) (e : event)
    : option (phase * value * list (option value)) :=
  match e with
  | Published p d o => Some (p, d, map (fun k => o !! k) ks)
  | _ => None
  end.

(** ** Subscribing, and the helpers of the test file *)

(** The subscriber array of phase [p] after [subscribe]: the handler supplied
    for [p], if there is one, comes last. *)
Definition with_handler (handlers : diagnostics_channel.TracingChannelSubscribers)
    (cs : diagnostics_channel.channels) (p : phase)
    : list diagnostics_channel.handler :=
  match handlers p with
  | None => cs p
  | Some h => cs p ++ [h]
  end.

(** ToBoolean: what [assert(x)] and [if (x)] test. *)
Definition truthy (v : value) : bool :=
  match v with
  | VUndefined | VNull | VNaN => false
  | VBoolean b => b
  | VNumber n => negb (n =? 0)
  | VBigInt n => negb (n =? 0)
  | VString s => negb (String.eqb s "")
  | VObject _ | VTypeError _ => true
  end.

(** [assertAllTelemetryFields(ctx)] of the test file: four assertions, then
    the context itself.  [None] is an assertion that fails; the context is
    the captured clone, or nothing when the phase was never captured. *)
Definition assertAllTelemetryFields (ctx : option (gmap string value))
    : option (gmap string value) :=
  match ctx with
  | None => None
  | Some o =>
      if truthy (default VUndefined (o !! startMonotonicTime))
         && truthy (default VUndefined (o !! endMonotonicTime))
         && truthy (default VUndefined (o !! duration))
      then Some o
      else None
  end.

(** [function (num) { if (!this.first) this.first = num; return this.first +
    num }] of the test file, on a receiver object whose [first] is a number
    or absent and with a number as argument. *)
Definition doubleFirstAddAfter : jsfun :=
  fun this args s =>
    match this, args with
    | VObject r, VNumber num :: _ =>
        let s' :=
          if truthy (default VUndefined (read_field s r "first")) then s
          else write_field s r "first" (VNumber num) in
        match read_field s' r "first" with
        | Some (VNumber first) => (Normal (VNumber (first + num)), s')
        | _ => (Normal VNaN, s')
        end
    | _, _ => (Throw (VTypeError "Cannot read properties of undefined"), s)
    end.

(** A function that uses the reserved key of the context at reference 1 for
    data of its own. *)
Definition clobber : jsfun :=
  fun _ _ s =>
    (Normal (VString "done"),
     write_field s 1%positive startMonotonicTime (VString "mine")).

Definition other_channel : TelemetryChannel :=
  {| name := VString "other-channel"; tracedChannel := "other-channel" |}.

(** A Node that returns early, and nobody subscribed. *)
Definition quiet_bus : diagnostics_channel.t := diagnostics_channel.Bus ∅ true.

(** The caller's context [{ id: 1 }] at reference 1 and the receiver [{}] at
    reference 3. *)
Definition receiver_store : store :=
  Store {[ 1%positive := {[ "id" := VNumber 1 ]}; 3%positive := ∅ ]} 1000.

Definition receiver_machine : machine := Machine receiver_store [].

(** ** Reading and writing fields *)

Lemma object_at_write (s : store) (l l' : loc) (k : string) (v : value) :
  object_at (write_field s l k v) l' =
  if decide (l = l') then <[k := v]> (object_at s l) else object_at s l'.
Proof.
  unfold object_at, write_field; simpl.
  rewrite lookup_insert. destruct (decide (l = l')); reflexivity.
Qed.

Lemma read_write (s : store) (l l' : loc) (k k' : string) (v : value) :
  read_field (write_field s l k v) l' k' =
  if decide (l = l' /\ k = k') then Some v else read_field s l' k'.
Proof.
  unfold read_field. rewrite object_at_write.
  destruct (decide (l = l')) as [->|Hl].
  - rewrite lookup_insert.
    destruct (decide (k = k')); destruct (decide (l' = l' /\ k = k')); tauto.
  - destruct (decide (l = l' /\ k = k')); tauto.
Qed.

Lemma read_write_eq (s : store) (l : loc) (k : string) (v : value) :
  read_field (write_field s l k v) l k = Some v.
Proof. rewrite read_write. destruct (decide (l = l /\ k = k)); tauto. Qed.

Lemma read_write_other (s : store) (l l' : loc) (k k' : string) (v : value) :
  k <> k' -> read_field (write_field s l k v) l' k' = read_field s l' k'.
Proof. intros H. rewrite read_write. destruct (decide (l = l' /\ k = k')); tauto. Qed.

(** ** The run equation *)

Lemma stamp_end_run (l : loc) (m : machine) :
  stamp_end l m =
  let s := write_field (mstore m) l endMonotonicTime (VBigInt (hrtime (mstore m))) in
  match as_bigint (read_field (mstore m) l startMonotonicTime) with
  | Some t0 =>
      (Normal tt,
       Machine (write_field s l duration (VBigInt (hrtime (mstore m) - t0)))
               (trace m ++ [Finally l]))
  | None =>
      (Throw (VTypeError "Cannot mix BigInt and other types, use explicit conversions"),
       Machine s (trace m ++ [Finally l]))
  end.
Proof.
  unfold stamp_end, bind, log, process_hrtime_bigint, set_field, get_field.
  cbn [mstore trace].
  rewrite read_write_eq, read_write_other by discriminate.
  destruct (read_field (mstore m) l "startMonotonicTime") as [[]|];
    reflexivity.
Qed.

Lemma trackedFn_run (fn : jsfun) (thisArg : value) (l : loc) (this : value)
    (args : list value) (m : machine) :
  trackedFn fn thisArg l this args m =
  let r := fst (fn thisArg args (mstore m)) in
  let s := snd (fn thisArg args (mstore m)) in
  let s' := write_field s l endMonotonicTime (VBigInt (hrtime s)) in
  let tr := trace m ++ [Applied thisArg args; Finally l] in
  match as_bigint (read_field s l startMonotonicTime) with
  | Some t0 =>
      (r, Machine (write_field s' l duration (VBigInt (hrtime s - t0))) tr)
  | None =>
      (Throw (VTypeError "Cannot mix BigInt and other types, use explicit conversions"),
       Machine s' tr)
  end.
Proof.
  unfold trackedFn, try_finally, apply.
  destruct (fn thisArg args (mstore m)) as [r s] eqn:E.
  rewrite stamp_end_run. cbn [mstore trace fst snd].
  rewrite <- app_assoc. cbn [app].
  destruct (as_bigint _); reflexivity.
Qed.

Lemma traceSync_run (self : TelemetryChannel) (b : diagnostics_channel.t)
    (fn : jsfun) (context : option loc) (thisArg : value) (args : list value)
    (m : machine) :
  traceSync self b fn context thisArg args m =
  (tracked_completion self b fn context thisArg args (mstore m),
   Machine (final_store self b fn context thisArg args (mstore m))
           (trace m ++ run_events self b fn context thisArg args (mstore m))).
Proof.
  assert (Hstamp :
      traceSync self b fn context thisArg args m =
      diagnostics_channel.traceSync b (tracedChannel self)
        (trackedFn fn thisArg (newContext_of context (mstore m)))
        (Some (newContext_of context (mstore m))) thisArg args
        (Machine (store_stamped context (mstore m)) (trace m))).
  { unfold traceSync, bind, nullish_or_new, new_object,
      process_hrtime_bigint, Object_assign, set_field, ret, store_stamped,
      newContext_of.
    destruct context; reflexivity. }
  rewrite Hstamp. clear Hstamp.
  unfold final_store, run_events, store_at_end, store_completed,
    tracked_completion, store_finally, start_at_exit, fn_completion,
    store_at_exit, store_at_call, publishes, subscribers.
  unfold diagnostics_channel.traceSync.
  set (l := newContext_of context (mstore m)).
  set (s1 := store_stamped context (mstore m)).
  destruct (diagnostics_channel.returns_early b &&
            negb (diagnostics_channel.hasSubscribers
                    (diagnostics_channel.lookup b (tracedChannel self)))) eqn:Hearly;
    cbn [negb].
  - rewrite trackedFn_run. cbn [mstore trace].
    destruct (as_bigint _); reflexivity.
  - unfold bind at 1. unfold nullish_or_new, ret.
    unfold bind at 1. unfold diagnostics_channel.publish at 1.
    unfold try_finally, try_catch. unfold bind at 1.
    rewrite trackedFn_run. cbn [mstore trace].
    fold l.
    change (diagnostics_channel.deliver _ (VObject l) _ s1)
      with (deliver_to self b context (mstore m) start s1).
    set (s2 := deliver_to self b context (mstore m) start s1).
    destruct (as_bigint (read_field (snd (fn thisArg args s2)) l "startMonotonicTime"))
      as [t0|] eqn:Hstart.
    + destruct (fst (fn thisArg args s2)) as [v|e] eqn:Hr.
      * unfold bind, set_field, ret, diagnostics_channel.publish, published.
        cbn [mstore trace]. fold l.
        rewrite <- !app_assoc. reflexivity.
      * unfold bind, set_field, throw, diagnostics_channel.publish, published.
        cbn [mstore trace]. fold l.
        rewrite <- !app_assoc. reflexivity.
    + unfold bind, set_field, throw, diagnostics_channel.publish, published.
      cbn [mstore trace]. fold l.
      rewrite <- !app_assoc. reflexivity.
Qed.

(** ** User code that respects the timing fields *)

Lemma deliver_keeps (l : loc) (k : string) (n : string) (d : value)
    (subs : list diagnostics_channel.handler) :
  (forall h, In h subs -> keeps l k (diagnostics_channel.onMessage h d n)) ->
  keeps l k (diagnostics_channel.deliver n d subs).
Proof.
  unfold keeps, diagnostics_channel.deliver.
  induction subs as [|h subs IH]; intros H s; cbn [fold_left].
  - reflexivity.
  - rewrite IH by (intros h' Hin; apply H; right; exact Hin).
    apply H. left. reflexivity.
Qed.

Lemma deliver_monotonic (n : string) (d : value)
    (subs : list diagnostics_channel.handler) :
  (forall h, In h subs -> monotonic (diagnostics_channel.onMessage h d n)) ->
  monotonic (diagnostics_channel.deliver n d subs).
Proof.
  unfold monotonic, diagnostics_channel.deliver.
  induction subs as [|h subs IH]; intros H s; cbn [fold_left].
  - lia.
  - etransitivity; [apply (H h); left; reflexivity|].
    apply IH. intros h' Hin. apply H. right. exact Hin.
Qed.

Section Runs.

Variable self : TelemetryChannel.
Variable b : diagnostics_channel.t.
Variable fn : jsfun.
Variable context : option loc.
Variable thisArg : value.
Variable args : list value.
Variable s0 : store.

Local Abbreviation l := (newContext_of context s0).
Local Abbreviation at_call := (store_at_call self b context s0).
Local Abbreviation at_exit := (store_at_exit self b fn context thisArg args s0).
Local Abbreviation after_finally := (store_finally self b fn context thisArg args s0).
Local Abbreviation completed := (store_completed self b fn context thisArg args s0).
Local Abbreviation at_end := (store_at_end self b fn context thisArg args s0).

Lemma deliver_to_keeps (l' : loc) (k : string) (p : phase) :
  phase_code (fun _ => keeps l' k) self b context s0 p ->
  keeps l' k (deliver_to self b context s0 p).
Proof.
  intros H. unfold deliver_to. apply deliver_keeps.
  intros h Hin. apply (H h Hin).
Qed.

Lemma deliver_to_monotonic (p : phase) :
  phase_code (fun _ => monotonic) self b context s0 p ->
  monotonic (deliver_to self b context s0 p).
Proof.
  intros H. unfold deliver_to. apply deliver_monotonic.
  intros h Hin. apply (H h Hin).
Qed.

Lemma respects_keeps (k : string) :
  In k timing_fields ->
  user_code respects_timing self b fn context thisArg args s0 ->
  user_code (fun _ => keeps l k) self b fn context thisArg args s0.
Proof.
  intros Hk [[_ Hfn] Hsubs]. split.
  - apply Hfn, Hk.
  - intros p h Hin. apply (Hsubs p h Hin), Hk.
Qed.

Lemma respects_monotonic :
  user_code respects_timing self b fn context thisArg args s0 ->
  user_code (fun _ => monotonic) self b fn context thisArg args s0.
Proof.
  intros [[Hfn _] Hsubs]. split.
  - exact Hfn.
  - intros p h Hin. apply (Hsubs p h Hin).
Qed.

Lemma read_stamped_start :
  read_field (store_stamped context s0) l startMonotonicTime = Some (VBigInt (hrtime s0)).
Proof. unfold store_stamped. apply read_write_eq. Qed.

Lemma hrtime_stamped : hrtime (store_stamped context s0) = hrtime s0.
Proof. unfold store_stamped. destruct context; reflexivity. Qed.

Lemma fresh_object_empty (k : string) :
  read_field s0 (fresh (dom (heap s0))) k = None.
Proof.
  unfold read_field, object_at.
  destruct (heap s0 !! fresh (dom (heap s0))) as [o|] eqn:E.
  - exfalso. apply (is_fresh (dom (heap s0))).
    apply elem_of_dom. exists o. exact E.
  - exact (lookup_empty k).
Qed.

(** Stamping the start changes [startMonotonicTime] of the context and
    nothing else: a new context has no other field. *)
Lemma read_stamped (l' : loc) (k : string) :
  l' <> l \/ k <> startMonotonicTime ->
  read_field (store_stamped context s0) l' k = read_field s0 l' k.
Proof.
  intros Hk. unfold store_stamped.
  rewrite read_write.
  destruct (decide (l = l' /\ startMonotonicTime = k)) as [[<- <-]|_];
    [destruct Hk; congruence|].
  destruct context as [c|]; [reflexivity|].
  unfold newContext_of.
  destruct (decide (l' = fresh (dom (heap s0)))) as [->|Hne].
  - rewrite fresh_object_empty.
    unfold read_field, object_at. cbn [heap].
    rewrite lookup_insert_eq. exact (lookup_empty k).
  - unfold read_field, object_at. cbn [heap].
    rewrite lookup_insert_ne by congruence. reflexivity.
Qed.

Lemma at_call_keeps (l' : loc) (k : string) :
  phase_code (fun _ => keeps l' k) self b context s0 start ->
  read_field at_call l' k = read_field (store_stamped context s0) l' k.
Proof.
  intros H. unfold store_at_call. destruct (publishes self b); [|reflexivity].
  apply deliver_to_keeps, H.
Qed.

Lemma at_exit_kept (l' : loc) (k : string) :
  keeps l' k (fn_step fn thisArg args) ->
  phase_code (fun _ => keeps l' k) self b context s0 start ->
  read_field at_exit l' k = read_field (store_stamped context s0) l' k.
Proof.
  intros Hfn H. rewrite <- (at_call_keeps l' k H).
  apply (Hfn at_call).
Qed.

Lemma at_exit_keeps (l' : loc) (k : string) :
  user_code (fun _ => keeps l' k) self b fn context thisArg args s0 ->
  read_field at_exit l' k = read_field (store_stamped context s0) l' k.
Proof. intros [Hfn H]. apply at_exit_kept; [exact Hfn|apply H]. Qed.

(** The [finally] block writes [endMonotonicTime] and [duration] of the
    context and nothing else. *)
Lemma finally_frame (l' : loc) (k : string) :
  l' <> l \/ (k <> endMonotonicTime /\ k <> duration) ->
  read_field after_finally l' k = read_field at_exit l' k.
Proof.
  intros Hk. unfold store_finally.
  destruct (start_at_exit self b fn context thisArg args s0);
    rewrite ?read_write;
    repeat match goal with
    | |- context [decide (?P /\ ?Q)] =>
        destruct (decide (P /\ Q)) as [[<- <-]|_]; [exfalso; tauto|]
    end; reflexivity.
Qed.

(** The bus writes [result] or [error] of the context and nothing else. *)
Lemma completed_frame (l' : loc) (k : string) :
  l' <> l \/ (k <> "result" /\ k <> "error") ->
  read_field completed l' k = read_field after_finally l' k.
Proof.
  intros Hk. unfold store_completed.
  destruct (tracked_completion self b fn context thisArg args s0);
    rewrite read_write;
    match goal with
    | |- context [decide (?P /\ ?Q)] =>
        destruct (decide (P /\ Q)) as [[<- <-]|_]; [exfalso; tauto|]
    end; reflexivity.
Qed.

Lemma read_finally_end :
  read_field after_finally l endMonotonicTime = Some (VBigInt (hrtime at_exit)).
Proof.
  unfold store_finally. destruct (start_at_exit self b fn context thisArg args s0).
  - rewrite read_write_other by discriminate. apply read_write_eq.
  - apply read_write_eq.
Qed.

Lemma read_finally_start :
  read_field after_finally l startMonotonicTime =
  read_field at_exit l startMonotonicTime.
Proof. apply finally_frame. right. split; discriminate. Qed.

Lemma read_finally_duration :
  read_field after_finally l duration =
  match as_bigint (read_field at_exit l startMonotonicTime) with
  | Some t0 => Some (VBigInt (hrtime at_exit - t0))
  | None => read_field at_exit l duration
  end.
Proof.
  unfold store_finally, start_at_exit.
  destruct (as_bigint (read_field at_exit l startMonotonicTime)).
  - apply read_write_eq.
  - apply read_write_other. discriminate.
Qed.

Lemma at_end_keeps (l' : loc) (k : string) :
  phase_code (fun _ => keeps l' k) self b context s0 error ->
  read_field at_end l' k = read_field completed l' k.
Proof.
  intros H. unfold store_at_end.
  destruct (tracked_completion self b fn context thisArg args s0) eqn:E.
  - unfold store_completed. rewrite E. reflexivity.
  - apply deliver_to_keeps, H.
Qed.

Lemma final_keeps (l' : loc) (k : string) :
  l' <> l \/ (k <> "result" /\ k <> "error") ->
  subscriber_code (fun _ => keeps l' k) self b context s0 ->
  read_field (final_store self b fn context thisArg args s0) l' k =
  read_field after_finally l' k.
Proof.
  intros Hk H. unfold final_store.
  destruct (publishes self b); [|reflexivity].
  rewrite (deliver_to_keeps l' k end_ (H end_)), (at_end_keeps l' k (H error)).
  apply completed_frame, Hk.
Qed.

Lemma at_exit_later :
  user_code (fun _ => monotonic) self b fn context thisArg args s0 ->
  hrtime s0 <= hrtime at_exit.
Proof.
  intros H. rewrite <- hrtime_stamped.
  transitivity (hrtime at_call).
  - unfold store_at_call. destruct (publishes self b); [|lia].
    apply deliver_to_monotonic, H.
  - destruct H as [Hfn _]. apply (Hfn at_call).
Qed.

Lemma start_at_exit_kept :
  start_kept self b fn context thisArg args s0 ->
  start_at_exit self b fn context thisArg args s0 = Some (hrtime s0).
Proof.
  intros [Hfn H]. unfold start_at_exit.
  rewrite (at_exit_kept l startMonotonicTime Hfn H), read_stamped_start.
  reflexivity.
Qed.

Lemma respects_start_kept :
  user_code respects_timing self b fn context thisArg args s0 ->
  start_kept self b fn context thisArg args s0.
Proof.
  intros H.
  destruct (respects_keeps startMonotonicTime (or_introl eq_refl) H) as [Hfn Hsubs].
  split; [exact Hfn|apply Hsubs].
Qed.

Lemma start_at_exit_respected :
  user_code respects_timing self b fn context thisArg args s0 ->
  start_at_exit self b fn context thisArg args s0 = Some (hrtime s0).
Proof.
  intros H. apply start_at_exit_kept, respects_start_kept, H.
Qed.

Lemma tracked_completion_kept :
  start_kept self b fn context thisArg args s0 ->
  tracked_completion self b fn context thisArg args s0 =
  fn_completion self b fn context thisArg args s0.
Proof.
  intros H. unfold tracked_completion.
  rewrite (start_at_exit_kept H). reflexivity.
Qed.


Lemma finally_stamped :
  user_code respects_timing self b fn context thisArg args s0 ->
  stamped (hrtime s0) (hrtime at_exit) (object_at after_finally l).
Proof.
  intros H.
  change (read_field after_finally l startMonotonicTime = Some (VBigInt (hrtime s0)) /\
          read_field after_finally l endMonotonicTime = Some (VBigInt (hrtime at_exit)) /\
          read_field after_finally l duration =
            Some (VBigInt (hrtime at_exit - hrtime s0)) /\
          0 <= hrtime at_exit - hrtime s0).
  unfold store_finally. rewrite (start_at_exit_respected H).
  rewrite read_write_eq, !read_write_other, read_write_eq by discriminate.
  rewrite (at_exit_keeps l startMonotonicTime), read_stamped_start
    by (apply respects_keeps; [left; reflexivity | exact H]).
  pose proof (at_exit_later (respects_monotonic H)). repeat split; lia.
Qed.

(** Writing a field that is no timing field keeps a stamped object stamped. *)
Lemma stamped_write (t0 t1 : Z) (s : store) (k : string) (v : value) :
  ~ In k timing_fields ->
  stamped t0 t1 (object_at s l) ->
  stamped t0 t1 (object_at (write_field s l k v) l).
Proof.
  intros Hk (Hs & He & Hd & Hle). unfold stamped.
  rewrite object_at_write. destruct (decide (l = l)) as [_|]; [|congruence].
  rewrite !lookup_insert_ne; [auto| | |];
    intros ->; apply Hk; cbn; auto.
Qed.

Lemma stamped_kept (t0 t1 : Z) (f : store -> store) (s : store) :
  (forall k, In k timing_fields -> keeps l k f) ->
  stamped t0 t1 (object_at s l) ->
  stamped t0 t1 (object_at (f s) l).
Proof.
  intros Hf (Hs & He & Hd & Hle).
  change (read_field (f s) l startMonotonicTime = Some (VBigInt t0) /\
          read_field (f s) l endMonotonicTime = Some (VBigInt t1) /\
          read_field (f s) l duration = Some (VBigInt (t1 - t0)) /\
          0 <= t1 - t0).
  rewrite !Hf by (cbn; auto). auto.
Qed.

Lemma completed_stamped :
  user_code respects_timing self b fn context thisArg args s0 ->
  stamped (hrtime s0) (hrtime at_exit) (object_at completed l).
Proof.
  intros H. unfold store_completed.
  destruct (tracked_completion self b fn context thisArg args s0);
    (apply stamped_write; [|apply finally_stamped, H]);
    cbn; intros [E|[E|[E|[]]]]; discriminate.
Qed.

Lemma at_end_stamped :
  user_code respects_timing self b fn context thisArg args s0 ->
  stamped (hrtime s0) (hrtime at_exit) (object_at at_end l).
Proof.
  intros H. pose proof (completed_stamped H) as Hc.
  unfold store_at_end.
  destruct (tracked_completion self b fn context thisArg args s0) eqn:E.
  - unfold store_completed in *. rewrite E in *. exact Hc.
  - apply stamped_kept; [|exact Hc].
    intros k Hk. apply deliver_to_keeps, (respects_keeps k Hk H).
Qed.

End Runs.

(** ** The claims about [traceSync] *)

(** Case analysis on an event found in the history of a run. *)
Ltac event_cases Hin :=
  cbn in Hin; unfold published in Hin;
  repeat (destruct Hin as [Hin|Hin]; [inversion Hin; subst|]);
  try contradiction.

Section Claims.

Variable self : TelemetryChannel.
Variable b : diagnostics_channel.t.
Variable fn : jsfun.
Variable context : option loc.
Variable thisArg : value.
Variable args : list value.
Variable m : machine.

Local Abbreviation l := (newContext_of context (mstore m)).
Local Abbreviation run := (traceSync self b fn context thisArg args m).
Local Abbreviation stage f := (f self b fn context thisArg args (mstore m)).
Local Abbreviation pub p s := (published context (mstore m) p s).

(** C1.  On every run of [traceSync], whether the traced function returns or
    throws, the [finally] block of [trackedFn] is entered exactly once, and
    no [end] or [error] event is published before it; the events published
    after it are [end] and [error] events on the context.  What the block
    writes is on the context before the bus goes on: when the bus publishes,
    the event right after the block exists, an end event follows, and that
    first event shows [endMonotonicTime], the reading taken as the function
    was left, and [duration], that reading minus the [startMonotonicTime]
    found on the context; when the bus publishes nothing, the context has
    both as [traceSync] is left.  When the user code leaves the timing fields
    alone and the clock does not run backwards under it, every end and error
    event and the context as [traceSync] is left carry the start reading,
    the end reading and [duration], their exact difference, which is not
    negative. *)
Theorem traceSync_stamps_before_completion_events :
  exists pre post : list event,
    trace (snd run) = trace m ++ pre ++ Finally l :: post /\
    forallb (fun e => negb (is_Finally e) && negb (is_completion_event e)) pre = true /\
    forallb (fun e => negb (is_Finally e)) post = true /\
    (forall p d o, In (Published p d o) post ->
       (p = end_ \/ p = error) /\ d = VObject l) /\
    (if publishes self b then
       exists (p : phase) (o o1 : gmap string value) (rest : list event),
         post = Published p (VObject l) o :: rest /\
         In (Published end_ (VObject l) o1) post /\
         o !! endMonotonicTime = Some (VBigInt (hrtime (stage store_at_exit))) /\
         o !! duration =
           match as_bigint (read_field (stage store_at_exit) l startMonotonicTime) with
           | Some t0 => Some (VBigInt (hrtime (stage store_at_exit) - t0))
           | None => read_field (stage store_at_exit) l duration
           end
     else
       post = [] /\
       read_field (mstore (snd run)) l endMonotonicTime =
         Some (VBigInt (hrtime (stage store_at_exit))) /\
       read_field (mstore (snd run)) l duration =
         match as_bigint (read_field (stage store_at_exit) l startMonotonicTime) with
         | Some t0 => Some (VBigInt (hrtime (stage store_at_exit) - t0))
         | None => read_field (stage store_at_exit) l duration
         end) /\
    (user_code respects_timing self b fn context thisArg args (mstore m) ->
     (forall p d o, In (Published p d o) post ->
        stamped (hrtime (mstore m)) (hrtime (stage store_at_exit)) o) /\
     stamped (hrtime (mstore m)) (hrtime (stage store_at_exit))
       (object_at (mstore (snd run)) l)).
Proof.
  rewrite traceSync_run. cbn [snd trace mstore].
  unfold run_events, final_store.
  assert (Hframe : forall k, k <> "result" /\ k <> "error" ->
            object_at (stage store_completed) l !! k =
            read_field (stage store_finally) l k).
  { intros k Hk. apply (completed_frame self b fn context thisArg args (mstore m) l k).
    right. exact Hk. }
  assert (Hfinal : user_code respects_timing self b fn context thisArg args (mstore m) ->
            stamped (hrtime (mstore m)) (hrtime (stage store_at_exit))
              (object_at (deliver_to self b context (mstore m) end_ (stage store_at_end)) l)).
  { intros H. apply stamped_kept; [|apply at_end_stamped, H].
    intros k Hk. apply deliver_to_keeps.
    apply (respects_keeps _ _ _ _ _ _ _ k Hk H). }
  destruct (publishes self b).
  - exists [pub start (store_stamped context (mstore m)); Applied thisArg args].
    destruct (stage tracked_completion) eqn:E.
    + exists [pub end_ (stage store_at_end)].
      do 3 (split; [reflexivity|]). split; [|split].
      * intros p d o [Hin|[]]. unfold published in Hin.
        inversion Hin; subst. auto.
      * exists end_, (object_at (stage store_at_end) l),
          (object_at (stage store_at_end) l), [].
        split; [reflexivity|]. split; [left; reflexivity|].
        unfold store_at_end. rewrite E.
        rewrite !Hframe by (split; discriminate).
        rewrite read_finally_end, read_finally_duration. split; reflexivity.
      * intros H. split; [|exact (Hfinal H)].
        intros p d o [Hin|[]]. unfold published in Hin.
        inversion Hin; subst. apply at_end_stamped, H.
    + exists [pub error (stage store_completed); pub end_ (stage store_at_end)].
      do 3 (split; [reflexivity|]). split; [|split].
      * intros p d o [Hin|[Hin|[]]]; unfold published in Hin;
          inversion Hin; subst; auto.
      * exists error, (object_at (stage store_completed) l),
          (object_at (stage store_at_end) l), [pub end_ (stage store_at_end)].
        split; [reflexivity|]. split; [right; left; reflexivity|].
        rewrite !Hframe by (split; discriminate).
        rewrite read_finally_end, read_finally_duration. split; reflexivity.
      * intros H. split; [|exact (Hfinal H)].
        intros p d o [Hin|[Hin|[]]]; unfold published in Hin;
          inversion Hin; subst.
        -- apply completed_stamped, H.
        -- apply at_end_stamped, H.
  - exists [Applied thisArg args], [].
    do 3 (split; [reflexivity|]). split; [|split].
    + intros p d o [].
    + split; [reflexivity|].
      rewrite read_finally_end, read_finally_duration. split; reflexivity.
    + intros H. split; [intros p d o []|apply finally_stamped, H].
Qed.

(** C2.  When the traced function throws [e], [traceSync] throws that same
    value [e]: after the [finally] block has stamped the context, the bus has
    stored [e] under [error] and published the error and the end event.  No
    step of the wrapper or the bus writes to the thrown object: every field
    the subscribers leave alone (its message, say) is at the end as the
    function left it.  The function and the start subscribers have left the
    [startMonotonicTime] of the context alone. *)
Theorem traceSync_rethrows_original_error (e : value) :
  stage fn_completion = Throw e ->
  start_kept self b fn context thisArg args (mstore m) ->
  fst run = Throw e /\
  trace (snd run) = trace m ++
    (if publishes self b
     then [pub start (store_stamped context (mstore m));
           Applied thisArg args; Finally l;
           pub error (stage store_completed); pub end_ (stage store_at_end)]
     else [Applied thisArg args; Finally l]) /\
  read_field (stage store_completed) l "error" = Some e /\
  forall l' k,
    l' <> l \/ ~ In k reserved_fields ->
    subscriber_code (fun _ => keeps l' k) self b context (mstore m) ->
    read_field (mstore (snd run)) l' k = read_field (stage store_at_exit) l' k.
Proof.
  intros Hfn H. rewrite traceSync_run. cbn [fst snd trace mstore].
  pose proof (tracked_completion_kept _ _ _ _ _ _ _ H) as Ht.
  rewrite Hfn in Ht. repeat split.
  - exact Ht.
  - unfold run_events. rewrite Ht. reflexivity.
  - unfold store_completed. rewrite Ht. apply read_write_eq.
  - intros l' k Hk Hsubs.
    rewrite final_keeps; [apply finally_frame| |exact Hsubs];
      (destruct Hk as [Hk|Hk]; [left; exact Hk|right]);
      split; intros ->; apply Hk; cbn; tauto.
Qed.

(** C3.  [traceSync] applies [fn] exactly once, to [thisArg] as receiver and
    to [args], whatever [fn] does; when that application returns [v], and
    the function and the start subscribers have left the
    [startMonotonicTime] of the context alone, [traceSync] returns [v]. *)
Theorem traceSync_applies_fn_once :
  (exists pre post : list event,
     trace (snd run) = trace m ++ pre ++ Applied thisArg args :: post /\
     forallb (fun e => negb (is_Applied e)) (pre ++ post) = true) /\
  forall v,
    stage fn_completion = Normal v ->
    start_kept self b fn context thisArg args (mstore m) ->
    fst run = Normal v.
Proof.
  rewrite traceSync_run. cbn [fst snd trace]. split.
  - unfold run_events. destruct (publishes self b).
    + exists [pub start (store_stamped context (mstore m))].
      eexists. split; [reflexivity|].
      destruct (stage tracked_completion); reflexivity.
    + exists [], [Finally l]. split; reflexivity.
  - intros v Hfn H.
    rewrite (tracked_completion_kept _ _ _ _ _ _ _ H). exact Hfn.
Qed.

(** C4.  Every event of one run carries the same object: the context passed
    in, or else one new object.  So a field [k] that a start subscriber has
    set is found with the same value by the error and end subscribers, when
    the traced function and the error subscribers leave it alone; the fields
    the wrapper and the bus write at completion are excepted. *)
Theorem traceSync_context_identity :
  match context with
  | Some c => l = c
  | None => heap (mstore m) !! l = None
  end /\
  exists evs : list event,
    trace (snd run) = trace m ++ evs /\
    (forall p d o, In (Published p d o) evs -> d = VObject l) /\
    forall k,
      ~ In k [endMonotonicTime; duration; "result"; "error"] ->
      keeps l k (fn_step fn thisArg args) ->
      phase_code (fun l => keeps l k) self b context (mstore m) error ->
      forall p d o, In (Published p d o) evs ->
        p <> start ->
        o !! k = read_field (store_at_call self b context (mstore m)) l k.
Proof.
  split.
  { destruct context; [reflexivity|].
    apply not_elem_of_dom, is_fresh. }
  rewrite traceSync_run. cbn [snd trace]. eexists; split; [reflexivity|].
  split.
  - unfold run_events. intros p d o Hin.
    destruct (publishes self b); cbn in Hin.
    + destruct (stage tracked_completion); event_cases Hin; reflexivity.
    + destruct Hin as [Hin|[Hin|[]]]; discriminate.
  - intros k Hk Hfn H.
    assert (Hc : read_field (stage store_completed) l k =
                 read_field (store_at_call self b context (mstore m)) l k).
    { rewrite completed_frame, finally_frame
        by (right; split; intros ->; apply Hk; cbn; tauto).
      apply (Hfn (store_at_call self b context (mstore m))). }
    assert (He : read_field (stage store_at_end) l k =
                 read_field (store_at_call self b context (mstore m)) l k).
    { rewrite at_end_keeps by apply H. exact Hc. }
    unfold run_events. intros p d o Hin Hp.
    destruct (publishes self b); cbn in Hin.
    + destruct (stage tracked_completion); event_cases Hin; try congruence; assumption.
    + destruct Hin as [Hin|[Hin|[]]]; discriminate.
Qed.

End Claims.

Section CallerContext.

Variable self : TelemetryChannel.
Variable b : diagnostics_channel.t.
Variable fn : jsfun.
Variable c : loc.
Variable thisArg : value.
Variable args : list value.
Variable m : machine.

Local Abbreviation context := (Some c).
Local Abbreviation run := (traceSync self b fn context thisArg args m).
Local Abbreviation stage f := (f self b fn context thisArg args (mstore m)).

(** C5.  A field of the caller's context whose key is not reserved keeps the
    value the caller gave it: it is the same in every published event and
    when [traceSync] is left, as long as the user code itself leaves it
    alone.  The wrapper's own steps, stamping the start and the [finally]
    block of [trackedFn], write no field of any object but the three timing
    fields of the context: they never set [result] or [error]. *)
Theorem traceSync_keeps_caller_fields :
  (forall k,
     ~ In k reserved_fields ->
     user_code (fun _ => keeps c k) self b fn context thisArg args (mstore m) ->
     read_field (mstore (snd run)) c k = read_field (mstore m) c k /\
     exists evs : list event,
       trace (snd run) = trace m ++ evs /\
       forall p d o, In (Published p d o) evs ->
         o !! k = read_field (mstore m) c k) /\
  forall l' k', l' <> c \/ ~ In k' timing_fields ->
    read_field (store_stamped context (mstore m)) l' k' =
      read_field (mstore m) l' k' /\
    forall this' args' m',
      read_field (mstore (snd (trackedFn fn thisArg c this' args' m'))) l' k' =
      read_field (snd (fn thisArg args' (mstore m'))) l' k'.
Proof.
  split.
  - intros k Hk H.
    assert (Hne : forall k0, In k0 reserved_fields -> k <> k0).
    { intros k0 Hin ->. exact (Hk Hin). }
    assert (Hexit : read_field (stage store_at_exit) c k = read_field (mstore m) c k).
    { rewrite (at_exit_keeps _ _ _ _ _ _ _ c k H).
      apply (read_stamped (Some c)). right. apply Hne. cbn; tauto. }
    assert (Hfin : read_field (stage store_finally) c k = read_field (mstore m) c k).
    { rewrite <- Hexit. apply finally_frame.
      right. split; apply Hne; cbn; tauto. }
    assert (Hc : read_field (stage store_completed) c k = read_field (mstore m) c k).
    { rewrite <- Hfin. apply completed_frame.
      right. split; apply Hne; cbn; tauto. }
    assert (He : read_field (stage store_at_end) c k = read_field (mstore m) c k).
    { rewrite <- Hc. apply at_end_keeps, H. }
    rewrite traceSync_run. cbn [snd trace mstore]. split.
    + rewrite <- Hfin. apply final_keeps; [|apply H].
      right. split; apply Hne; cbn; tauto.
    + eexists; split; [reflexivity|].
      unfold run_events. intros p d o Hin.
      destruct (publishes self b); cbn in Hin.
      * destruct (stage tracked_completion); event_cases Hin; try assumption;
          apply (read_stamped (Some c)); right; apply Hne; cbn; tauto.
      * destruct Hin as [Hin|[Hin|[]]]; discriminate.
  - intros l' k' Hout. split.
    + apply (read_stamped (Some c)).
      destruct Hout as [Hl|Hk']; [left; exact Hl|right].
      intros ->. apply Hk'. cbn; tauto.
    + intros this' args' m'. rewrite trackedFn_run. cbn zeta.
      destruct (as_bigint _); cbn [snd mstore];
        rewrite ?read_write;
        repeat match goal with
        | |- context [decide (?P /\ ?Q)] =>
            destruct (decide (P /\ Q)) as [[<- <-]|_];
              [exfalso; destruct Hout as [Hl|Hk'];
                 [congruence|apply Hk'; cbn; tauto]|]
        end; reflexivity.
Qed.

End CallerContext.

(** ** Runs that succeed, and contexts used again *)

Section Timing.

Variable self : TelemetryChannel.
Variable b : diagnostics_channel.t.
Variable fn : jsfun.
Variable context : option loc.
Variable thisArg : value.
Variable args : list value.
Variable m : machine.

Local Abbreviation l := (newContext_of context (mstore m)).
Local Abbreviation run := (traceSync self b fn context thisArg args m).
Local Abbreviation stage f := (f self b fn context thisArg args (mstore m)).
Local Abbreviation pub p s := (published context (mstore m) p s).


End Timing.

Section ReusedContext.

Variable self : TelemetryChannel.
Variable b : diagnostics_channel.t.
Variable fn : jsfun.
Variable c : loc.
Variable thisArg : value.
Variable args : list value.
Variable m : machine.

Local Abbreviation context := (Some c).
Local Abbreviation run := (traceSync self b fn context thisArg args m).
Local Abbreviation stage f := (f self b fn context thisArg args (mstore m)).

(** C10.  When the caller's context already has fields under the reserved
    keys, the start event shows the context with [startMonotonicTime] set to
    the new reading and every other field as the caller passed it, the old
    [endMonotonicTime] and [duration] among them.  The error and end events
    show both replaced by the values of this run, the user code leaving the
    timing fields alone and the clock not running backwards under it. *)
Theorem traceSync_reused_context :
  exists evs : list event,
    trace (snd run) = trace m ++ evs /\
    (forall d o, In (Published start d o) evs ->
       o !! startMonotonicTime = Some (VBigInt (hrtime (mstore m))) /\
       o !! endMonotonicTime = read_field (mstore m) c endMonotonicTime /\
       o !! duration = read_field (mstore m) c duration /\
       forall k, k <> startMonotonicTime -> o !! k = read_field (mstore m) c k) /\
    (user_code respects_timing self b fn context thisArg args (mstore m) ->
     forall p d o, In (Published p d o) evs ->
       p <> start ->
       stamped (hrtime (mstore m)) (hrtime (stage store_at_exit)) o).
Proof.
  rewrite traceSync_run. cbn [snd trace].
  eexists; split; [reflexivity|].
  assert (Hstart : forall k, k <> startMonotonicTime ->
            read_field (store_stamped context (mstore m)) c k =
            read_field (mstore m) c k).
  { intros k Hk. apply (read_stamped (Some c)). right. exact Hk. }
  unfold run_events. split.
  - intros d o Hin.
    destruct (publishes self b); cbn in Hin.
    + destruct (stage tracked_completion); event_cases Hin;
        (split; [apply (read_stamped_start (Some c))|]);
        (split; [apply Hstart; discriminate|]);
        (split; [apply Hstart; discriminate|]); exact Hstart.
    + destruct Hin as [Hin|[Hin|[]]]; discriminate.
  - intros H p d o Hin Hp.
    pose proof (completed_stamped _ _ _ _ _ _ _ H) as Hc.
    pose proof (at_end_stamped _ _ _ _ _ _ _ H) as He.
    destruct (publishes self b); cbn in Hin.
    + destruct (stage tracked_completion); event_cases Hin; try congruence; assumption.
    + destruct Hin as [Hin|[Hin|[]]]; discriminate.
Qed.

End ReusedContext.

(** ** The class and its construction *)

(** C7, amended.  Of the three tracing entry points the class has one,
    [traceSync]; calling [tracePromise] or [traceCallback] on an instance is
    a TypeError, and neither applies the function nor publishes an event. *)
Theorem only_traceSync_is_provided :
  map fst tracing_methods = ["traceSync"] /\
  call_method "traceSync" = traceSync /\
  (forall self b fn context thisArg args m,
     call_method "tracePromise" self b fn context thisArg args m =
     (Throw (VTypeError "tracePromise is not a function"), m)) /\
  (forall self b fn context thisArg args m,
     call_method "traceCallback" self b fn context thisArg args m =
     (Throw (VTypeError "traceCallback is not a function"), m)).
Proof. repeat split. Qed.

(** C8, amended.  Construction depends on the name alone and touches neither
    the store nor the subscriber arrays.  Every string, the empty one too,
    gives a wrapper for the tracing channel of that name.  The wrapper adds
    no check and catches nothing: construction fails only for a name that is
    no string, exactly when the bus refuses it and with the error the bus
    raises; what the bus accepts, the wrapper accepts. *)
Theorem telemetryChannel_construction (otherwise : value -> completion string)
    (nm : value) :
  match telemetryChannel otherwise nm with
  | Normal tc =>
      name tc = nm /\
      diagnostics_channel.tracingChannel otherwise nm = Normal (tracedChannel tc) /\
      match nm with VString s => tracedChannel tc = s | _ => True end
  | Throw e =>
      match nm with VString _ => False | _ => otherwise nm = Throw e end
  end.
Proof.
  unfold telemetryChannel, TelemetryChannel_new.
  destruct nm; cbn [diagnostics_channel.tracingChannel];
    try (destruct (otherwise _); cbn; repeat split; reflexivity).
  cbn. repeat split.
Qed.

(** ** Unsubscribing *)

Lemma remove_first_is_subscribed (h : diagnostics_channel.handler)
    (subs : list diagnostics_channel.handler) :
  is_subscribed h subs =
  match diagnostics_channel.remove_first h subs with
  | Some _ => true
  | None => false
  end.
Proof.
  unfold is_subscribed.
  induction subs as [|x subs IH];
    cbn [existsb diagnostics_channel.remove_first]; [reflexivity|].
  destruct (decide (diagnostics_channel.hid x = diagnostics_channel.hid h)) as [E|E].
  - rewrite bool_decide_eq_true_2 by exact E. reflexivity.
  - rewrite bool_decide_eq_false_2 by exact E. cbn [orb]. rewrite IH.
    destruct (diagnostics_channel.remove_first h subs); reflexivity.
Qed.

Lemma unsubscribe_fold (handlers : diagnostics_channel.TracingChannelSubscribers)
    (ps : list phase) :
  NoDup ps ->
  forall (done : bool) (cs : diagnostics_channel.channels),
    let r := fold_left (diagnostics_channel.unsubscribe_step handlers) ps (done, cs) in
    fst r =
      done && forallb (fun p => match handlers p with
                                | None => true
                                | Some h => is_subscribed h (cs p)
                                end) ps /\
    forall q, snd r q = if decide (q ∈ ps) then without handlers cs q else cs q.
Proof.
  induction 1 as [|a ps Ha Hnd IH]; intros done cs; cbn [fold_left forallb].
  - split; [destruct done; reflexivity|].
    intros q. destruct (decide (q ∈ [])) as [Hq|_]; [inversion Hq|reflexivity].
  - set (acc := diagnostics_channel.unsubscribe_step handlers (done, cs) a).
    destruct (IH (fst acc) (snd acc)) as [IHd IHc].
    rewrite <- surjective_pairing in IHd, IHc.
    assert (Hother : forall p, p ∈ ps -> snd acc p = cs p).
    { intros p Hp. subst acc. unfold diagnostics_channel.unsubscribe_step.
      destruct (handlers a) as [h|]; [|reflexivity]. cbn [snd].
      destruct (diagnostics_channel.remove_first h (cs a)); [|reflexivity].
      cbn [snd]. unfold diagnostics_channel.update.
      destruct (decide (p = a)) as [->|_]; [contradiction|reflexivity]. }
    assert (Hall :
      forallb (fun p => match handlers p with
                        | None => true
                        | Some h => is_subscribed h (snd acc p)
                        end) ps =
      forallb (fun p => match handlers p with
                        | None => true
                        | Some h => is_subscribed h (cs p)
                        end) ps).
    { clear -Hother. induction ps as [|p ps IHps]; cbn; [reflexivity|].
      rewrite Hother by left. rewrite IHps; [reflexivity|].
      intros q Hq. apply Hother. right. exact Hq. }
    split.
    + rewrite IHd, Hall. subst acc. unfold diagnostics_channel.unsubscribe_step.
      destruct (handlers a) as [h|]; [|reflexivity].
      rewrite remove_first_is_subscribed. cbn [snd fst].
      destruct (diagnostics_channel.remove_first h (cs a));
        destruct done; reflexivity.
    + intros q. rewrite IHc.
      destruct (decide (q ∈ ps)) as [Hq|Hq].
      * rewrite decide_True by (right; exact Hq).
        unfold without. rewrite (Hother q Hq). reflexivity.
      * destruct (decide (q = a)) as [->|Hne].
        -- rewrite decide_True by left.
           subst acc. unfold diagnostics_channel.unsubscribe_step, without.
           destruct (handlers a) as [h|]; [|reflexivity]. cbn [snd].
           destruct (diagnostics_channel.remove_first h (cs a));
             [|reflexivity].
           cbn [snd from_option id]. unfold diagnostics_channel.update.
           rewrite decide_True by reflexivity. reflexivity.
        -- rewrite decide_False by (intros Hin; inversion Hin; subst; contradiction).
           subst acc. unfold diagnostics_channel.unsubscribe_step.
           destruct (handlers a) as [h|]; [|reflexivity]. cbn [snd].
           destruct (diagnostics_channel.remove_first h (cs a));
             [|reflexivity].
           cbn [snd]. unfold diagnostics_channel.update.
           rewrite decide_False by exact Hne. reflexivity.
Qed.

Lemma traceEvents_NoDup : NoDup traceEvents.
Proof.
  unfold traceEvents.
  repeat (constructor; [intros Hin; repeat (inversion Hin as [|? ? ? Hin']; subst; clear Hin; rename Hin' into Hin); inversion Hin|]).
  constructor.
Qed.

Lemma traceEvents_all (p : phase) : p ∈ traceEvents.
Proof. unfold traceEvents. destruct p; repeat constructor. Qed.


(** ** The runs of the test suite, evaluated *)

(** Scenario A: [traceSync(name => `Hello ${name}`, { id: 1 }, null, 'Jake')]
    returns the greeting; the start event has [id] and the start time only,
    the end event has all three timing fields and the result. *)
Example scenario_greet :
  let r := traceSync my_channel my_bus greet (Some 1%positive) VNull
             [VString "Jake"] my_machine in
  fst r = Normal (VString "Hello Jake") /\
  map (observe ["id"; startMonotonicTime; endMonotonicTime; duration; "result"; "error"])
      (trace (snd r)) =
  [Some (start, VObject 1%positive,
         [Some (VNumber 1); Some (VBigInt 1000); None; None; None; None]);
   None; None;
   Some (end_, VObject 1%positive,
         [Some (VNumber 1); Some (VBigInt 1000); Some (VBigInt 1040);
          Some (VBigInt 40); Some (VString "Hello Jake"); None])].
Proof. vm_compute. split; reflexivity. Qed.

(** Scenario B: the function throws; the error event and the end event carry
    the same error and the same timing, and the error comes back. *)
Example scenario_boom :
  let r := traceSync my_channel my_bus boom (Some 1%positive) VNull
             [VString "Jake"] my_machine in
  fst r = Throw (VObject 2%positive) /\
  read_field (mstore (snd r)) 2%positive "message" =
    Some (VString "supposed to happen") /\
  map (observe [startMonotonicTime; endMonotonicTime; duration; "result"; "error"])
      (trace (snd r)) =
  [Some (start, VObject 1%positive,
         [Some (VBigInt 1000); None; None; None; None]);
   None; None;
   Some (error, VObject 1%positive,
         [Some (VBigInt 1000); Some (VBigInt 1025); Some (VBigInt 25); None;
          Some (VObject 2%positive)]);
   Some (end_, VObject 1%positive,
         [Some (VBigInt 1000); Some (VBigInt 1025); Some (VBigInt 25); None;
          Some (VObject 2%positive)])].
Proof. vm_compute. repeat split; reflexivity. Qed.

(** The user code of these runs respects what is asked of it. *)

Lemma my_bus_subscribers :
  subscribers my_channel my_bus =
  fun p => match p with start => [mark_seen] | _ => [] end.
Proof.
  unfold subscribers, diagnostics_channel.lookup, my_bus, my_channel.
  cbn [diagnostics_channel.registry tracedChannel].
  rewrite lookup_singleton_eq. reflexivity.
Qed.

Lemma my_subscriber_code (P : loc -> (store -> store) -> Prop)
    (context : option loc) (s0 : store) :
  P (newContext_of context s0)
    (handler_step my_channel (newContext_of context s0) start mark_seen) ->
  subscriber_code P my_channel my_bus context s0.
Proof.
  intros H p h Hin. rewrite my_bus_subscribers in Hin.
  destruct p; cbn in Hin; try contradiction.
  destruct Hin as [<-|[]]. exact H.
Qed.

Lemma mark_seen_keeps (l l' : loc) (k : string) (p : phase) :
  k <> "seen" -> keeps l' k (handler_step my_channel l p mark_seen).
Proof.
  intros Hk s. unfold handler_step, mark_seen. cbn.
  apply read_write_other. congruence.
Qed.

Lemma mark_seen_respects (l : loc) (p : phase) :
  respects_timing l (handler_step my_channel l p mark_seen).
Proof.
  split.
  - intros s. cbn. lia.
  - intros k Hk. apply mark_seen_keeps.
    destruct Hk as [<-|[<-|[<-|[]]]]; discriminate.
Qed.

Lemma greet_keeps (l : loc) (k : string) (this : value) (args : list value) :
  keeps l k (fn_step greet this args).
Proof. intros s. unfold fn_step, greet. destruct args as [|[] ?]; reflexivity. Qed.

Lemma greet_respects (l : loc) (this : value) (args : list value) :
  respects_timing l (fn_step greet this args).
Proof.
  split.
  - intros s. unfold fn_step, greet. destruct args as [|[] ?]; cbn; lia.
  - intros k _. apply greet_keeps.
Qed.

Lemma boom_keeps (l : loc) (k : string) (this : value) (args : list value) :
  k <> "message" -> keeps l k (fn_step boom this args).
Proof.
  intros Hk s. unfold fn_step, boom. cbn [snd].
  change (read_field (write_field s (fresh (dom (heap s))) "message"
                        (VString "supposed to happen")) l k = read_field s l k).
  apply read_write_other. congruence.
Qed.

Lemma boom_respects (l : loc) (this : value) (args : list value) :
  respects_timing l (fn_step boom this args).
Proof.
  split.
  - intros s. cbn. lia.
  - intros k Hk. apply boom_keeps.
    destruct Hk as [<-|[<-|[<-|[]]]]; discriminate.
Qed.

Lemma greet_run_respects (context : option loc) (args : list value) (s0 : store) :
  user_code respects_timing my_channel my_bus greet context VNull args s0.
Proof.
  split; [apply greet_respects|].
  apply my_subscriber_code, mark_seen_respects.
Qed.

Lemma boom_run_respects (context : option loc) (args : list value) (s0 : store) :
  user_code respects_timing my_channel my_bus boom context VNull args s0.
Proof.
  split; [apply boom_respects|].
  apply my_subscriber_code, mark_seen_respects.
Qed.

(** C8 as the spec has it fails: the empty name, its example of a name that
    cannot be used, is accepted like any other string, whatever the bus does
    with the values that are no strings. *)
Lemma telemetryChannel_accepts_empty_name :
  telemetryChannel (fun _ => Throw (VTypeError "ERR_INVALID_ARG_TYPE")) (VString "") =
  Normal {| name := VString ""; tracedChannel := "" |} /\
  telemetryChannel (fun _ => Normal "any") (VString "") =
  Normal {| name := VString ""; tracedChannel := "" |}.
Proof. split; reflexivity. Qed.

(** C7 as the spec has it fails: an instance has no [tracePromise]; the call
    is a TypeError, no start event is published and the function is not
    applied. *)
Lemma tracePromise_is_not_a_function :
  tracing_method "tracePromise" = None /\
  call_method "tracePromise" my_channel my_bus greet (Some 1%positive) VNull
    [VString "Jake"] my_machine =
  (Throw (VTypeError "tracePromise is not a function"), my_machine) /\
  trace my_machine = [].
Proof. repeat split. Qed.

(** ** The claims on the runs of the test suite *)

Lemma boom_run_stamped_before_events :
  user_code respects_timing my_channel my_bus boom (Some 1%positive) VNull
    [VString "Jake"] (mstore my_machine) /\
  exists pre post : list event,
    trace (snd (traceSync my_channel my_bus boom (Some 1%positive) VNull
                  [VString "Jake"] my_machine)) =
      trace my_machine ++ pre ++ Finally 1%positive :: post /\
    forallb (fun e => negb (is_Finally e) && negb (is_completion_event e)) pre = true /\
    forallb (fun e => negb (is_Finally e)) post = true /\
    (forall p d o, In (Published p d o) post ->
       (p = end_ \/ p = error) /\
       d = VObject 1%positive /\
       stamped (hrtime (mstore my_machine))
         (hrtime (store_at_exit my_channel my_bus boom (Some 1%positive) VNull
                    [VString "Jake"] (mstore my_machine))) o) /\
    stamped (hrtime (mstore my_machine))
      (hrtime (store_at_exit my_channel my_bus boom (Some 1%positive) VNull
                 [VString "Jake"] (mstore my_machine)))
      (object_at (mstore (snd (traceSync my_channel my_bus boom (Some 1%positive)
                                 VNull [VString "Jake"] my_machine))) 1%positive).
Proof.
  pose proof (boom_run_respects (Some 1%positive) [VString "Jake"]
                (mstore my_machine)) as H.
  split; [exact H|].
  destruct (traceSync_stamps_before_completion_events my_channel my_bus boom
              (Some 1%positive) VNull [VString "Jake"] my_machine)
    as (pre & post & Htrace & Hpre & Hpost & Hevents & _ & Hstamped).
  destruct (Hstamped H) as [Hev Hctx].
  exists pre, post.
  split; [exact Htrace|]. split; [exact Hpre|]. split; [exact Hpost|].
  split; [|exact Hctx].
  intros p d o Hin.
  destruct (Hevents p d o Hin) as [Hp Hd].
  split; [exact Hp|]. split; [exact Hd|].
  exact (Hev p d o Hin).
Defined.

Lemma boom_run_rethrows :
  fn_completion my_channel my_bus boom (Some 1%positive) VNull [VString "Jake"]
    (mstore my_machine) = Throw (VObject 2%positive) /\
  start_kept my_channel my_bus boom (Some 1%positive) VNull [VString "Jake"]
    (mstore my_machine) /\
  fst (traceSync my_channel my_bus boom (Some 1%positive) VNull [VString "Jake"]
         my_machine) = Throw (VObject 2%positive) /\
  read_field (mstore (snd (traceSync my_channel my_bus boom (Some 1%positive)
                             VNull [VString "Jake"] my_machine)))
    2%positive "message" =
  read_field (store_at_exit my_channel my_bus boom (Some 1%positive) VNull
                [VString "Jake"] (mstore my_machine)) 2%positive "message".
Proof.
  assert (Hthrows :
    fn_completion my_channel my_bus boom (Some 1%positive) VNull [VString "Jake"]
      (mstore my_machine) = Throw (VObject 2%positive))
    by (vm_compute; reflexivity).
  assert (Hkeeps :
    start_kept my_channel my_bus boom (Some 1%positive) VNull [VString "Jake"]
      (mstore my_machine)).
  { split; [apply boom_keeps; discriminate|].
    apply (my_subscriber_code (fun l => keeps l startMonotonicTime)),
      mark_seen_keeps.
    discriminate. }
  split; [exact Hthrows|]. split; [exact Hkeeps|].
  destruct (traceSync_rethrows_original_error my_channel my_bus boom
              (Some 1%positive) VNull [VString "Jake"] my_machine
              (VObject 2%positive) Hthrows Hkeeps)
    as (Hresult & _ & _ & Hframe).
  split; [exact Hresult|].
  apply Hframe.
  - left. discriminate.
  - apply my_subscriber_code, mark_seen_keeps. discriminate.
Defined.

Lemma greet_run_applied_once :
  fn_completion my_channel my_bus greet (Some 1%positive) VNull [VString "Jake"]
    (mstore my_machine) = Normal (VString "Hello Jake") /\
  start_kept my_channel my_bus greet (Some 1%positive) VNull [VString "Jake"]
    (mstore my_machine) /\
  fst (traceSync my_channel my_bus greet (Some 1%positive) VNull [VString "Jake"]
         my_machine) = Normal (VString "Hello Jake") /\
  exists pre post : list event,
    trace (snd (traceSync my_channel my_bus greet (Some 1%positive) VNull
                  [VString "Jake"] my_machine)) =
      trace my_machine ++ pre ++ Applied VNull [VString "Jake"] :: post /\
    forallb (fun e => negb (is_Applied e)) (pre ++ post) = true.
Proof.
  assert (Hreturns :
    fn_completion my_channel my_bus greet (Some 1%positive) VNull [VString "Jake"]
      (mstore my_machine) = Normal (VString "Hello Jake"))
    by (vm_compute; reflexivity).
  assert (Hkeeps :
    start_kept my_channel my_bus greet (Some 1%positive) VNull [VString "Jake"]
      (mstore my_machine)).
  { split; [apply greet_keeps|].
    apply (my_subscriber_code (fun l => keeps l startMonotonicTime)),
      mark_seen_keeps.
    discriminate. }
  split; [exact Hreturns|]. split; [exact Hkeeps|].
  destruct (traceSync_applies_fn_once my_channel my_bus greet (Some 1%positive)
              VNull [VString "Jake"] my_machine) as [Honce Hvalue].
  split; [|exact Honce].
  exact (Hvalue (VString "Hello Jake") Hreturns Hkeeps).
Defined.

Lemma greet_run_same_context :
  ~ In "seen" [endMonotonicTime; duration; "result"; "error"] /\
  keeps 1%positive "seen" (fn_step greet VNull [VString "Jake"]) /\
  phase_code (fun l => keeps l "seen") my_channel my_bus (Some 1%positive)
    (mstore my_machine) error /\
  exists evs : list event,
    trace (snd (traceSync my_channel my_bus greet (Some 1%positive) VNull
                  [VString "Jake"] my_machine)) = trace my_machine ++ evs /\
    forall p d o, In (Published p d o) evs ->
      d = VObject 1%positive /\
      (p <> start ->
       o !! "seen" =
       read_field (store_at_call my_channel my_bus (Some 1%positive)
                     (mstore my_machine)) 1%positive "seen").
Proof.
  assert (Hk : ~ In "seen" [endMonotonicTime; duration; "result"; "error"]).
  { cbn. intros [E|[E|[E|[E|[]]]]]; discriminate. }
  assert (Hfn : keeps 1%positive "seen" (fn_step greet VNull [VString "Jake"]))
    by apply greet_keeps.
  assert (Herr : phase_code (fun l => keeps l "seen") my_channel my_bus
                   (Some 1%positive) (mstore my_machine) error).
  { intros h Hin. rewrite my_bus_subscribers in Hin. destruct Hin. }
  split; [exact Hk|]. split; [exact Hfn|]. split; [exact Herr|].
  destruct (traceSync_context_identity my_channel my_bus greet (Some 1%positive)
              VNull [VString "Jake"] my_machine)
    as (_ & evs & Htrace & Hsame & Hfield).
  exists evs. split; [exact Htrace|].
  intros p d o Hin. split; [exact (Hsame p d o Hin)|].
  exact (Hfield "seen" Hk Hfn Herr p d o Hin).
Defined.

Lemma greet_run_keeps_id :
  ~ In "id" reserved_fields /\
  user_code (fun _ => keeps 1%positive "id") my_channel my_bus greet
    (Some 1%positive) VNull [VString "Jake"] (mstore my_machine) /\
  read_field (mstore (snd (traceSync my_channel my_bus greet (Some 1%positive)
                             VNull [VString "Jake"] my_machine))) 1%positive "id" =
    read_field (mstore my_machine) 1%positive "id" /\
  exists evs : list event,
    trace (snd (traceSync my_channel my_bus greet (Some 1%positive) VNull
                  [VString "Jake"] my_machine)) = trace my_machine ++ evs /\
    forall p d o, In (Published p d o) evs ->
      o !! "id" = read_field (mstore my_machine) 1%positive "id".
Proof.
  assert (Hk : ~ In "id" reserved_fields).
  { cbn. intros [E|[E|[E|[E|[E|[]]]]]]; discriminate. }
  assert (Hkeeps :
    user_code (fun _ => keeps 1%positive "id") my_channel my_bus greet
      (Some 1%positive) VNull [VString "Jake"] (mstore my_machine)).
  { split; [apply greet_keeps|].
    apply my_subscriber_code, mark_seen_keeps. discriminate. }
  split; [exact Hk|]. split; [exact Hkeeps|].
  exact (proj1 (traceSync_keeps_caller_fields my_channel my_bus greet 1%positive
                  VNull [VString "Jake"] my_machine) "id" Hk Hkeeps).
Defined.


Lemma greet_rerun_replaces_old_fields :
  read_field (mstore reused_machine) 1%positive endMonotonicTime = Some (VBigInt 17) /\
  read_field (mstore reused_machine) 1%positive duration = Some (VBigInt 7) /\
  user_code respects_timing my_channel my_bus greet (Some 1%positive) VNull
    [VString "Jake"] (mstore reused_machine) /\
  exists evs : list event,
    trace (snd (traceSync my_channel my_bus greet (Some 1%positive) VNull
                  [VString "Jake"] reused_machine)) = trace reused_machine ++ evs /\
    (forall d o, In (Published start d o) evs ->
       o !! startMonotonicTime = Some (VBigInt (hrtime (mstore reused_machine))) /\
       o !! endMonotonicTime = Some (VBigInt 17) /\
       o !! duration = Some (VBigInt 7)) /\
    (forall p d o, In (Published p d o) evs ->
       p <> start ->
       stamped (hrtime (mstore reused_machine))
         (hrtime (store_at_exit my_channel my_bus greet (Some 1%positive) VNull
                    [VString "Jake"] (mstore reused_machine))) o).
Proof.
  assert (Hend : read_field (mstore reused_machine) 1%positive endMonotonicTime =
                 Some (VBigInt 17)) by (vm_compute; reflexivity).
  assert (Hdur : read_field (mstore reused_machine) 1%positive duration =
                 Some (VBigInt 7)) by (vm_compute; reflexivity).
  pose proof (greet_run_respects (Some 1%positive) [VString "Jake"]
                (mstore reused_machine)) as H.
  split; [exact Hend|]. split; [exact Hdur|]. split; [exact H|].
  destruct (traceSync_reused_context my_channel my_bus greet 1%positive VNull
              [VString "Jake"] reused_machine)
    as (evs & Htrace & Hstart & Hstamped).
  exists evs. split; [exact Htrace|]. split.
  - intros d o Hin.
    destruct (Hstart d o Hin) as (Hs & He & Hd & _).
    rewrite He, Hd. split; [exact Hs|]. split; [exact Hend|exact Hdur].
  - exact (Hstamped H).
Defined.

(** Unsubscribing the start subscriber of the test bus succeeds once; a
    second time the handler is no longer there and the answer is [false]. *)
Example unsubscribe_twice :
  let once := unsubscribe my_channel my_bus start_only in
  let twice := unsubscribe my_channel (snd once) start_only in
  fst once = true /\ fst twice = false /\
  forall p, subscribers my_channel (snd twice) p = [].
Proof.
  cbn zeta. split; [vm_compute; reflexivity|]. split; [vm_compute; reflexivity|].
  intros p. destruct p; vm_compute; reflexivity.
Qed.

(** The test bus is what subscribing the start handler to a fresh bus gives. *)
Example my_bus_by_subscribe (p : phase) :
  subscribers my_channel
    (subscribe my_channel (diagnostics_channel.Bus ∅ false) start_only) p =
  subscribers my_channel my_bus p.
Proof. destruct p; vm_compute; reflexivity. Qed.

(** ** Subscribing and unsubscribing together *)

Lemma subscribe_fold (handlers : diagnostics_channel.TracingChannelSubscribers)
    (ps : list phase) :
  NoDup ps ->
  forall (cs : diagnostics_channel.channels) (q : phase),
    fold_left (diagnostics_channel.subscribe_step handlers) ps cs q =
    if decide (q ∈ ps) then with_handler handlers cs q else cs q.
Proof.
  induction 1 as [|a ps Ha Hnd IH]; intros cs q; cbn [fold_left].
  - destruct (decide (q ∈ [])) as [Hq|_]; [inversion Hq|reflexivity].
  - rewrite IH.
    assert (Hother : forall p, p <> a ->
              diagnostics_channel.subscribe_step handlers cs a p = cs p).
    { intros p Hp. unfold diagnostics_channel.subscribe_step.
      destruct (handlers a); [|reflexivity].
      unfold diagnostics_channel.update. rewrite decide_False by exact Hp.
      reflexivity. }
    destruct (decide (q ∈ ps)) as [Hq|Hq].
    + rewrite decide_True by (right; exact Hq).
      unfold with_handler. rewrite Hother by (intros ->; contradiction).
      reflexivity.
    + destruct (decide (q = a)) as [->|Hne].
      * rewrite decide_True by left.
        unfold diagnostics_channel.subscribe_step, with_handler.
        destruct (handlers a); [|reflexivity].
        unfold diagnostics_channel.update, diagnostics_channel.Channel_subscribe.
        rewrite decide_True by reflexivity. reflexivity.
      * rewrite decide_False by (intros Hin; inversion Hin; subst; contradiction).
        apply Hother, Hne.
Qed.

Lemma subscribers_subscribe (self : TelemetryChannel) (b : diagnostics_channel.t)
    (handlers : diagnostics_channel.TracingChannelSubscribers) (p : phase) :
  subscribers self (subscribe self b handlers) p =
  with_handler handlers (subscribers self b) p.
Proof.
  unfold subscribe, diagnostics_channel.subscribe, subscribers.
  unfold diagnostics_channel.lookup at 1. cbn [diagnostics_channel.registry].
  rewrite lookup_insert_eq. cbn [from_option id].
  rewrite (subscribe_fold handlers traceEvents traceEvents_NoDup).
  rewrite decide_True by apply traceEvents_all. reflexivity.
Qed.

Lemma unsubscribe_done (self : TelemetryChannel) (b : diagnostics_channel.t)
    (handlers : diagnostics_channel.TracingChannelSubscribers) :
  fst (unsubscribe self b handlers) =
  forallb (fun p => match handlers p with
                    | None => true
                    | Some h => is_subscribed h (subscribers self b p)
                    end) traceEvents.
Proof.
  unfold unsubscribe, diagnostics_channel.unsubscribe, subscribers. cbn [fst].
  destruct (unsubscribe_fold handlers traceEvents traceEvents_NoDup true
              (diagnostics_channel.lookup b (tracedChannel self))) as [Hd _].
  exact Hd.
Qed.

Lemma subscribers_unsubscribe (self : TelemetryChannel) (b : diagnostics_channel.t)
    (handlers : diagnostics_channel.TracingChannelSubscribers) (p : phase) :
  subscribers self (snd (unsubscribe self b handlers)) p =
  without handlers (subscribers self b) p.
Proof.
  unfold unsubscribe, diagnostics_channel.unsubscribe, subscribers. cbn [snd].
  destruct (unsubscribe_fold handlers traceEvents traceEvents_NoDup true
              (diagnostics_channel.lookup b (tracedChannel self))) as [_ Hc].
  cbn zeta in Hc.
  unfold diagnostics_channel.lookup at 1. cbn [diagnostics_channel.registry].
  rewrite lookup_insert_eq. cbn [from_option id]. rewrite Hc.
  rewrite decide_True by apply traceEvents_all. reflexivity.
Qed.

Lemma is_subscribed_last (h : diagnostics_channel.handler)
    (subs : list diagnostics_channel.handler) :
  is_subscribed h (subs ++ [h]) = true.
Proof.
  unfold is_subscribed. rewrite existsb_app. cbn [existsb].
  rewrite bool_decide_eq_true_2 by reflexivity.
  rewrite orb_true_r. reflexivity.
Qed.

Lemma remove_first_last (h : diagnostics_channel.handler)
    (subs : list diagnostics_channel.handler) :
  is_subscribed h subs = false ->
  diagnostics_channel.remove_first h (subs ++ [h]) = Some subs.
Proof.
  unfold is_subscribed.
  induction subs as [|x subs IH]; cbn [existsb app diagnostics_channel.remove_first];
    intros Hno.
  - rewrite decide_True by reflexivity. reflexivity.
  - apply orb_false_iff in Hno. destruct Hno as [Hx Hrest].
    apply bool_decide_eq_false in Hx.
    rewrite decide_False by exact Hx. rewrite (IH Hrest). reflexivity.
Qed.

(** X1.  [subscribe] puts each handler supplied at the end of the channel of
    its phase, behind the handlers already there and without looking for a
    duplicate, and leaves the channel of a phase without handler as it is. *)
Theorem subscribe_appends_handlers (self : TelemetryChannel)
    (b : diagnostics_channel.t)
    (handlers : diagnostics_channel.TracingChannelSubscribers) (p : phase) :
  subscribers self (subscribe self b handlers) p =
  match handlers p with
  | Some h => subscribers self b p ++ [h]
  | None => subscribers self b p
  end.
Proof. rewrite subscribers_subscribe. reflexivity. Qed.

(** X2.  Subscribing and unsubscribing through one wrapper leave the channels
    of every other name as they are. *)
Theorem other_names_untouched (self other : TelemetryChannel)
    (b : diagnostics_channel.t)
    (handlers : diagnostics_channel.TracingChannelSubscribers) :
  tracedChannel other <> tracedChannel self ->
  subscribers other (subscribe self b handlers) = subscribers other b /\
  subscribers other (snd (unsubscribe self b handlers)) = subscribers other b.
Proof.
  intros Hne.
  unfold subscribers, subscribe, unsubscribe, diagnostics_channel.subscribe,
    diagnostics_channel.unsubscribe, diagnostics_channel.lookup.
  cbn [snd diagnostics_channel.registry].
  rewrite !lookup_insert_ne by congruence. split; reflexivity.
Qed.

(** X3.  Unsubscribing the set of handlers just subscribed always answers
    [true]; a channel in which the handler was not subscribed before is
    then again as it was. *)
Theorem unsubscribe_after_subscribe (self : TelemetryChannel)
    (b : diagnostics_channel.t)
    (handlers : diagnostics_channel.TracingChannelSubscribers) :
  fst (unsubscribe self (subscribe self b handlers) handlers) = true /\
  forall p,
    match handlers p with
    | Some h => is_subscribed h (subscribers self b p) = false
    | None => True
    end ->
    subscribers self (snd (unsubscribe self (subscribe self b handlers) handlers)) p =
    subscribers self b p.
Proof.
  split.
  - rewrite unsubscribe_done. apply forallb_forall. intros p _.
    rewrite subscribers_subscribe. unfold with_handler.
    destruct (handlers p) as [h|]; [|reflexivity].
    apply is_subscribed_last.
  - intros p Hnew. rewrite subscribers_unsubscribe. unfold without.
    rewrite subscribers_subscribe. unfold with_handler.
    destruct (handlers p) as [h|]; [|reflexivity].
    rewrite (remove_first_last h _ Hnew). reflexivity.
Qed.

(** ** More about one run of [traceSync] *)

Lemma as_bigint_Some (v : option value) (n : Z) :
  as_bigint v = Some n -> v = Some (VBigInt n).
Proof. destruct v as [[]|]; cbn; congruence. Qed.

Lemma hasSubscribers_nonempty (cs : diagnostics_channel.channels) (p : phase) :
  cs p <> [] -> diagnostics_channel.hasSubscribers cs = true.
Proof.
  intros Hp. unfold diagnostics_channel.hasSubscribers.
  apply existsb_exists. exists p. split.
  - apply list_elem_of_In, traceEvents_all.
  - destruct (cs p); [contradiction|reflexivity].
Qed.

Lemma hasSubscribers_empty (cs : diagnostics_channel.channels) :
  (forall p, cs p = []) -> diagnostics_channel.hasSubscribers cs = false.
Proof.
  intros Hnone. unfold diagnostics_channel.hasSubscribers, traceEvents.
  cbn [existsb]. rewrite !Hnone. reflexivity.
Qed.

Section MoreRuns.

Variable self : TelemetryChannel.
Variable b : diagnostics_channel.t.
Variable fn : jsfun.
Variable context : option loc.
Variable thisArg : value.
Variable args : list value.
Variable m : machine.

Local Abbreviation l := (newContext_of context (mstore m)).
Local Abbreviation run := (traceSync self b fn context thisArg args m).
Local Abbreviation stage f := (f self b fn context thisArg args (mstore m)).
Local Abbreviation pub p s := (published context (mstore m) p s).
Local Abbreviation at_exit := (store_at_exit self b fn context thisArg args (mstore m)).

(** X4.  Whatever the function and the subscribers did to the context, the
    first event published after the function is left carries the clock
    reading taken then as [endMonotonicTime].  Its [duration] is that
    reading minus the [startMonotonicTime] found on the context then, when
    this is a BigInt; when it is not, [duration] stays as it was found. *)
Theorem first_completion_event_is_stamped :
  publishes self b = true ->
  exists (pre post : list event) (p : phase) (o : gmap string value),
    trace (snd run) =
      trace m ++ pre ++ Finally l :: Published p (VObject l) o :: post /\
    (p = end_ \/ p = error) /\
    o !! endMonotonicTime = Some (VBigInt (hrtime at_exit)) /\
    o !! startMonotonicTime = read_field at_exit l startMonotonicTime /\
    o !! duration =
      match as_bigint (read_field at_exit l startMonotonicTime) with
      | Some t0 => Some (VBigInt (hrtime at_exit - t0))
      | None => read_field at_exit l duration
      end.
Proof.
  intros Hpub. rewrite traceSync_run. cbn [snd trace].
  unfold run_events. rewrite Hpub.
  assert (Hframe : forall k, k <> "result" /\ k <> "error" ->
            object_at (stage store_completed) l !! k =
            read_field (stage store_finally) l k).
  { intros k Hk. apply (completed_frame self b fn context thisArg args (mstore m) l k).
    right. exact Hk. }
  exists [pub start (store_stamped context (mstore m)); Applied thisArg args].
  destruct (stage tracked_completion) eqn:E.
  - exists [], end_, (object_at (stage store_at_end) l).
    unfold store_at_end. rewrite E.
    split; [reflexivity|]. split; [left; reflexivity|].
    rewrite !Hframe by (split; discriminate).
    rewrite read_finally_end, read_finally_start, read_finally_duration.
    repeat split.
  - exists [pub end_ (stage store_at_end)], error,
      (object_at (stage store_completed) l).
    split; [reflexivity|]. split; [right; reflexivity|].
    rewrite !Hframe by (split; discriminate).
    rewrite read_finally_end, read_finally_start, read_finally_duration.
    repeat split.
Qed.

(** X5.  When the [startMonotonicTime] of the context is no BigInt any more
    as the function is left (deleted, or overwritten with another kind of
    value), the subtraction in the [finally] block throws: [traceSync]
    throws that TypeError whether the function had returned or thrown, and
    the bus publishes it in an error event. *)
Theorem clobbered_start_throws_TypeError :
  as_bigint (read_field at_exit l startMonotonicTime) = None ->
  let oops := VTypeError "Cannot mix BigInt and other types, use explicit conversions" in
  fst run = Throw oops /\
  (publishes self b = true ->
   exists o0 oe o1 : gmap string value,
     trace (snd run) =
       trace m ++ [Published start (VObject l) o0; Applied thisArg args; Finally l;
                   Published error (VObject l) oe; Published end_ (VObject l) o1] /\
     oe !! "error" = Some oops /\
     oe !! "result" = read_field at_exit l "result").
Proof.
  intros Hnone oops. rewrite traceSync_run. cbn [fst snd trace].
  assert (Ht : stage tracked_completion = Throw oops).
  { unfold tracked_completion, start_at_exit. rewrite Hnone. reflexivity. }
  split; [exact Ht|].
  intros Hpub. unfold run_events. rewrite Hpub, Ht.
  eexists _, _, _. split; [reflexivity|].
  change (read_field (stage store_completed) l "error" = Some oops /\
          read_field (stage store_completed) l "result" = read_field at_exit l "result").
  unfold store_completed. rewrite Ht. split.
  - apply read_write_eq.
  - rewrite read_write_other by discriminate.
    apply finally_frame. right. split; discriminate.
Qed.

(** X6.  The caller's own object is enriched in place: when [traceSync] is
    left, by return or by throw, with or without subscribers, the context
    holds the reading taken at the start, the reading taken as the function
    was left and their exact difference.  The user code leaves the timing
    fields alone and the clock does not run backwards under it. *)
Theorem context_is_stamped_on_return :
  user_code respects_timing self b fn context thisArg args (mstore m) ->
  stamped (hrtime (mstore m)) (hrtime at_exit) (object_at (mstore (snd run)) l).
Proof.
  intros H. rewrite traceSync_run. cbn [snd mstore].
  unfold final_store. destruct (publishes self b).
  - apply stamped_kept; [|apply at_end_stamped, H].
    intros k Hk. apply deliver_to_keeps.
    apply (respects_keeps _ _ _ _ _ _ _ k Hk H).
  - apply finally_stamped, H.
Qed.

(** X7.  When the function returns [v], the one event published after it is
    the end event, and it carries [v] under [result].  The bus does not
    touch [error] on this path: an [error] left on a context by an earlier
    run is still there. *)
Theorem end_event_carries_result (v : value) :
  stage fn_completion = Normal v ->
  start_kept self b fn context thisArg args (mstore m) ->
  publishes self b = true ->
  exists o0 o1 : gmap string value,
    trace (snd run) =
      trace m ++ [Published start (VObject l) o0; Applied thisArg args; Finally l;
                  Published end_ (VObject l) o1] /\
    o1 !! "result" = Some v /\
    o1 !! "error" = read_field at_exit l "error".
Proof.
  intros Hfn Hkept Hpub. rewrite traceSync_run. cbn [snd trace].
  pose proof (tracked_completion_kept _ _ _ _ _ _ _ Hkept) as Ht.
  rewrite Hfn in Ht.
  unfold run_events. rewrite Hpub, Ht.
  eexists _, _. split; [reflexivity|].
  change (read_field (stage store_at_end) l "result" = Some v /\
          read_field (stage store_at_end) l "error" = read_field at_exit l "error").
  unfold store_at_end, store_completed. rewrite Ht. split.
  - apply read_write_eq.
  - rewrite read_write_other by discriminate.
    apply finally_frame. right. split; discriminate.
Qed.

(** X8.  When the function throws, an error event and then an end event are
    published; every field the error subscribers leave alone has the same
    value in both, and with no error subscriber the two show the same
    object. *)
Theorem end_event_repeats_error_event (e : value) :
  stage fn_completion = Throw e ->
  publishes self b = true ->
  exists o0 oe o1 : gmap string value,
    trace (snd run) =
      trace m ++ [Published start (VObject l) o0; Applied thisArg args; Finally l;
                  Published error (VObject l) oe; Published end_ (VObject l) o1] /\
    (forall k, phase_code (fun l => keeps l k) self b context (mstore m) error ->
       o1 !! k = oe !! k) /\
    (subscribers self b error = [] -> o1 = oe).
Proof.
  intros Hfn Hpub. rewrite traceSync_run. cbn [snd trace].
  assert (Ht : exists e', stage tracked_completion = Throw e').
  { unfold tracked_completion. rewrite Hfn.
    destruct (stage start_at_exit); eexists; reflexivity. }
  destruct Ht as [e' Ht].
  unfold run_events. rewrite Hpub, Ht.
  eexists _, _, _. split; [reflexivity|]. split.
  - intros k Hk.
    apply (at_end_keeps self b fn context thisArg args (mstore m) l k Hk).
  - intros Hnone. unfold store_at_end. rewrite Ht.
    unfold deliver_to. rewrite Hnone. reflexivity.
Qed.

(** X9.  The phases of the direct model: a run never publishes [asyncStart]
    or [asyncEnd]; it publishes an error event exactly when it ends by a
    throw; when the bus publishes, the start event comes first and the end
    event last, once each; when it does not, nothing is published. *)
Theorem traceSync_phases :
  exists evs : list event,
    trace (snd run) = trace m ++ evs /\
    forallb (fun e => negb (is_Published asyncStart e)
                      && negb (is_Published asyncEnd e)) evs = true /\
    existsb (is_Published error) evs =
      (publishes self b && match fst run with Throw _ => true | Normal _ => false end) /\
    if publishes self b then
      exists (o0 o1 : gmap string value) (mid : list event),
        evs = Published start (VObject l) o0 :: mid ++ [Published end_ (VObject l) o1] /\
        forallb (fun e => negb (is_Published start e)
                          && negb (is_Published end_ e)) mid = true
    else
      forallb (fun e => match e with Published _ _ _ => false | _ => true end) evs = true.
Proof.
  rewrite traceSync_run. cbn [fst snd trace].
  eexists; split; [reflexivity|].
  unfold run_events.
  destruct (publishes self b); destruct (stage tracked_completion);
    (split; [reflexivity|]); (split; [reflexivity|]);
    try reflexivity.
  - eexists _, _, [Applied thisArg args; Finally l]. split; reflexivity.
  - eexists _, _, [Applied thisArg args; Finally l; pub error (stage store_completed)].
    split; reflexivity.
Qed.

(** X10.  What the function did to other objects, its receiver among them,
    is what the caller finds: a field of an object other than the context,
    or a field of the context that is not reserved, is when [traceSync] is
    left as the function left it, if the subscribers do not write it. *)
Theorem side_effects_survive (l' : loc) (k : string) :
  l' <> l \/ ~ In k reserved_fields ->
  subscriber_code (fun _ => keeps l' k) self b context (mstore m) ->
  read_field (mstore (snd run)) l' k = read_field at_exit l' k.
Proof.
  intros Hk Hsubs. rewrite traceSync_run. cbn [snd mstore].
  rewrite final_keeps; [apply finally_frame| |exact Hsubs];
    (destruct Hk as [Hk|Hk]; [left; exact Hk|right]);
    split; intros ->; apply Hk; cbn; tauto.
Qed.

(** X11.  On a Node that returns early, with no subscriber on any of the five
    channels, nothing is published and neither [result] nor [error] is
    attached, but the [finally] block still runs: the context gets its
    [endMonotonicTime]. *)
Theorem unobserved_run_is_still_stamped :
  diagnostics_channel.returns_early b = true ->
  (forall p, subscribers self b p = []) ->
  trace (snd run) = trace m ++ [Applied thisArg args; Finally l] /\
  read_field (mstore (snd run)) l endMonotonicTime = Some (VBigInt (hrtime at_exit)) /\
  read_field (mstore (snd run)) l "result" = read_field at_exit l "result" /\
  read_field (mstore (snd run)) l "error" = read_field at_exit l "error".
Proof.
  intros Hearly Hnone. rewrite traceSync_run. cbn [snd trace mstore].
  assert (Hpub : publishes self b = false).
  { unfold publishes. rewrite Hearly, (hasSubscribers_empty _ Hnone). reflexivity. }
  unfold run_events, final_store. rewrite Hpub.
  split; [reflexivity|]. split; [apply read_finally_end|].
  split; apply finally_frame; right; split; discriminate.
Qed.

End MoreRuns.

(** X12.  Called without a context, [traceSync] makes a new object for it, at
    a reference no object had before, and the start event shows it with
    [startMonotonicTime] and nothing else. *)
Theorem default_context_is_new (self : TelemetryChannel)
    (b : diagnostics_channel.t) (fn : jsfun) (thisArg : value)
    (args : list value) (m : machine) :
  publishes self b = true ->
  let l := newContext_of None (mstore m) in
  heap (mstore m) !! l = None /\
  exists post : list event,
    trace (snd (traceSync self b fn None thisArg args m)) =
    trace m ++
    Published start (VObject l) {[ startMonotonicTime := VBigInt (hrtime (mstore m)) ]}
    :: post.
Proof.
  intros Hpub l. split; [apply not_elem_of_dom, is_fresh|].
  rewrite traceSync_run. cbn [snd trace]. unfold run_events. rewrite Hpub.
  eexists. cbn [app]. f_equal. unfold published. f_equal.
  unfold store_stamped. rewrite object_at_write.
  rewrite decide_True by reflexivity.
  unfold object_at. cbn [heap]. rewrite lookup_insert_eq. reflexivity.
Qed.

Lemma deliver_app (n : string) (d : value)
    (subs : list diagnostics_channel.handler) (h : diagnostics_channel.handler)
    (s : store) :
  diagnostics_channel.deliver n d (subs ++ [h]) s =
  diagnostics_channel.onMessage h d n (diagnostics_channel.deliver n d subs s).
Proof. unfold diagnostics_channel.deliver. rewrite fold_left_app. reflexivity. Qed.

(** X13.  A handler subscribed for the start phase is served by the next
    [traceSync] on that wrapper, on any Node: the bus publishes, the handler
    runs last among the start subscribers, on the context already stamped
    with the start time, and the function is entered in the store the
    handler leaves. *)
Theorem subscribed_start_handler_is_served (self : TelemetryChannel)
    (b : diagnostics_channel.t)
    (handlers : diagnostics_channel.TracingChannelSubscribers)
    (h : diagnostics_channel.handler) (fn : jsfun) (context : option loc)
    (thisArg : value) (args : list value) (m : machine) :
  handlers start = Some h ->
  let b' := subscribe self b handlers in
  let l := newContext_of context (mstore m) in
  (exists (o : gmap string value) (post : list event),
     trace (snd (traceSync self b' fn context thisArg args m)) =
       trace m ++ Published start (VObject l) o :: post /\
     o !! startMonotonicTime = Some (VBigInt (hrtime (mstore m)))) /\
  store_at_call self b' context (mstore m) =
    handler_step self l start h
      (deliver_to self b context (mstore m) start (store_stamped context (mstore m))).
Proof.
  intros Hh b' l.
  assert (Hsubs : subscribers self b' start = subscribers self b start ++ [h]).
  { unfold b'. rewrite subscribers_subscribe. unfold with_handler.
    rewrite Hh. reflexivity. }
  assert (Hpub : publishes self b' = true).
  { unfold publishes.
    rewrite (hasSubscribers_nonempty (subscribers self b') start).
    - apply negb_true_iff, andb_false_r.
    - rewrite Hsubs. destruct (subscribers self b start); discriminate. }
  split.
  - rewrite traceSync_run. cbn [snd trace]. unfold run_events. rewrite Hpub.
    eexists _, _. split; [reflexivity|].
    apply (read_stamped_start context (mstore m)).
  - unfold store_at_call. rewrite Hpub.
    unfold deliver_to. rewrite Hsubs. apply deliver_app.
Qed.

(** X14.  [assertAllTelemetryFields] of the test file gives back the context
    it is given or fails.  On a context stamped by [traceSync] it fails
    exactly when one of the two readings is [0n] or the two are equal: a
    [duration] of [0n] is not truthy. *)
Theorem assertAllTelemetryFields_wants_time_to_pass (t0 t1 : Z)
    (o : gmap string value) :
  stamped t0 t1 o ->
  assertAllTelemetryFields None = None /\
  (forall o', assertAllTelemetryFields (Some o) = Some o' -> o' = o) /\
  (assertAllTelemetryFields (Some o) = Some o <-> t0 <> 0 /\ t1 <> 0 /\ t0 < t1).
Proof.
  intros (Hs & He & Hd & Hle). split; [reflexivity|].
  unfold assertAllTelemetryFields. rewrite Hs, He, Hd. cbn [from_option id truthy].
  split.
  - intros o'. destruct (_ && _); congruence.
  - destruct (Z.eqb_spec t0 0), (Z.eqb_spec t1 0), (Z.eqb_spec (t1 - t0) 0);
      cbn; split; try discriminate; try (intros _; lia); try lia; reflexivity.
Qed.

(** ** These properties on runs of the test suite *)

Lemma quiet_bus_subscribers (self : TelemetryChannel) (p : phase) :
  subscribers self quiet_bus p = [].
Proof.
  unfold subscribers, diagnostics_channel.lookup, quiet_bus.
  cbn [diagnostics_channel.registry]. rewrite lookup_empty. reflexivity.
Qed.

Lemma my_bus_publishes : publishes my_channel my_bus = true.
Proof. reflexivity. Qed.

Lemma other_channel_untouched :
  tracedChannel other_channel <> tracedChannel my_channel /\
  subscribers other_channel (subscribe my_channel my_bus start_only) =
    subscribers other_channel my_bus /\
  subscribers other_channel (snd (unsubscribe my_channel my_bus start_only)) =
    subscribers other_channel my_bus.
Proof.
  assert (Hne : tracedChannel other_channel <> tracedChannel my_channel)
    by discriminate.
  split; [exact Hne|].
  exact (other_names_untouched my_channel other_channel my_bus start_only Hne).
Defined.

Lemma boom_run_first_event_stamped :
  publishes my_channel my_bus = true /\
  exists (pre post : list event) (p : phase) (o : gmap string value),
    trace (snd (traceSync my_channel my_bus boom (Some 1%positive) VNull
                  [VString "Jake"] my_machine)) =
      trace my_machine ++ pre ++
      Finally 1%positive :: Published p (VObject 1%positive) o :: post /\
    (p = end_ \/ p = error) /\
    o !! endMonotonicTime =
      Some (VBigInt (hrtime (store_at_exit my_channel my_bus boom (Some 1%positive)
                               VNull [VString "Jake"] (mstore my_machine)))).
Proof.
  split; [exact my_bus_publishes|].
  destruct (first_completion_event_is_stamped my_channel my_bus boom
              (Some 1%positive) VNull [VString "Jake"] my_machine my_bus_publishes)
    as (pre & post & p & o & Htrace & Hp & Hend & _).
  exists pre, post, p, o. split; [exact Htrace|]. split; [exact Hp|exact Hend].
Defined.

Lemma clobber_run_throws :
  as_bigint (read_field (store_at_exit my_channel my_bus clobber (Some 1%positive)
                           VNull [] (mstore my_machine))
               1%positive startMonotonicTime) = None /\
  fst (traceSync my_channel my_bus clobber (Some 1%positive) VNull [] my_machine) =
    Throw (VTypeError "Cannot mix BigInt and other types, use explicit conversions").
Proof.
  assert (Hnone :
    as_bigint (read_field (store_at_exit my_channel my_bus clobber (Some 1%positive)
                             VNull [] (mstore my_machine))
                 1%positive startMonotonicTime) = None)
    by (vm_compute; reflexivity).
  split; [exact Hnone|].
  exact (proj1 (clobbered_start_throws_TypeError my_channel my_bus clobber
                  (Some 1%positive) VNull [] my_machine Hnone)).
Defined.

Lemma greet_run_context_stamped :
  user_code respects_timing my_channel my_bus greet (Some 1%positive) VNull
    [VString "Jake"] (mstore my_machine) /\
  stamped (hrtime (mstore my_machine))
    (hrtime (store_at_exit my_channel my_bus greet (Some 1%positive) VNull
               [VString "Jake"] (mstore my_machine)))
    (object_at (mstore (snd (traceSync my_channel my_bus greet (Some 1%positive)
                              VNull [VString "Jake"] my_machine))) 1%positive).
Proof.
  pose proof (greet_run_respects (Some 1%positive) [VString "Jake"]
                (mstore my_machine)) as H.
  split; [exact H|].
  exact (context_is_stamped_on_return my_channel my_bus greet (Some 1%positive)
           VNull [VString "Jake"] my_machine H).
Defined.

Lemma greet_run_end_event_result :
  fn_completion my_channel my_bus greet (Some 1%positive) VNull [VString "Jake"]
    (mstore my_machine) = Normal (VString "Hello Jake") /\
  start_kept my_channel my_bus greet (Some 1%positive) VNull [VString "Jake"]
    (mstore my_machine) /\
  publishes my_channel my_bus = true /\
  exists o0 o1 : gmap string value,
    trace (snd (traceSync my_channel my_bus greet (Some 1%positive) VNull
                  [VString "Jake"] my_machine)) =
      trace my_machine ++
      [Published start (VObject 1%positive) o0; Applied VNull [VString "Jake"];
       Finally 1%positive; Published end_ (VObject 1%positive) o1] /\
    o1 !! "result" = Some (VString "Hello Jake") /\
    o1 !! "error" =
      read_field (store_at_exit my_channel my_bus greet (Some 1%positive) VNull
                    [VString "Jake"] (mstore my_machine)) 1%positive "error".
Proof.
  assert (Hreturns :
    fn_completion my_channel my_bus greet (Some 1%positive) VNull [VString "Jake"]
      (mstore my_machine) = Normal (VString "Hello Jake"))
    by (vm_compute; reflexivity).
  pose proof (respects_start_kept _ _ _ _ _ _ _
                (greet_run_respects (Some 1%positive) [VString "Jake"]
                   (mstore my_machine))) as Hkept.
  split; [exact Hreturns|]. split; [exact Hkept|]. split; [exact my_bus_publishes|].
  exact (end_event_carries_result my_channel my_bus greet (Some 1%positive) VNull
           [VString "Jake"] my_machine (VString "Hello Jake") Hreturns Hkept
           my_bus_publishes).
Defined.

Lemma boom_run_end_repeats_error :
  fn_completion my_channel my_bus boom (Some 1%positive) VNull [VString "Jake"]
    (mstore my_machine) = Throw (VObject 2%positive) /\
  publishes my_channel my_bus = true /\
  exists o0 oe : gmap string value,
    trace (snd (traceSync my_channel my_bus boom (Some 1%positive) VNull
                  [VString "Jake"] my_machine)) =
      trace my_machine ++
      [Published start (VObject 1%positive) o0; Applied VNull [VString "Jake"];
       Finally 1%positive; Published error (VObject 1%positive) oe;
       Published end_ (VObject 1%positive) oe].
Proof.
  assert (Hthrows :
    fn_completion my_channel my_bus boom (Some 1%positive) VNull [VString "Jake"]
      (mstore my_machine) = Throw (VObject 2%positive))
    by (vm_compute; reflexivity).
  split; [exact Hthrows|]. split; [exact my_bus_publishes|].
  destruct (end_event_repeats_error_event my_channel my_bus boom (Some 1%positive)
              VNull [VString "Jake"] my_machine (VObject 2%positive) Hthrows
              my_bus_publishes)
    as (o0 & oe & o1 & Htrace & _ & Hsame).
  exists o0, oe. rewrite Htrace.
  rewrite (Hsame (eq_ind_r (fun cs => cs error = []) eq_refl my_bus_subscribers)).
  reflexivity.
Defined.

Lemma receiver_keeps_first :
  (3%positive <> newContext_of (Some 1%positive) (mstore receiver_machine) \/
   ~ In "first" reserved_fields) /\
  subscriber_code (fun _ => keeps 3%positive "first") my_channel my_bus
    (Some 1%positive) (mstore receiver_machine) /\
  read_field
    (mstore (snd (traceSync my_channel my_bus doubleFirstAddAfter (Some 1%positive)
                    (VObject 3%positive) [VNumber 2] receiver_machine)))
    3%positive "first" =
  read_field
    (store_at_exit my_channel my_bus doubleFirstAddAfter (Some 1%positive)
       (VObject 3%positive) [VNumber 2] (mstore receiver_machine))
    3%positive "first".
Proof.
  assert (Hobj : 3%positive <> newContext_of (Some 1%positive) (mstore receiver_machine) \/
                 ~ In "first" reserved_fields) by (left; discriminate).
  assert (Hsubs : subscriber_code (fun _ => keeps 3%positive "first") my_channel
                    my_bus (Some 1%positive) (mstore receiver_machine)).
  { apply my_subscriber_code, mark_seen_keeps. discriminate. }
  split; [exact Hobj|]. split; [exact Hsubs|].
  exact (side_effects_survive my_channel my_bus doubleFirstAddAfter
           (Some 1%positive) (VObject 3%positive) [VNumber 2] receiver_machine
           3%positive "first" Hobj Hsubs).
Defined.

Lemma quiet_run_is_stamped :
  diagnostics_channel.returns_early quiet_bus = true /\
  (forall p, subscribers my_channel quiet_bus p = []) /\
  trace (snd (traceSync my_channel quiet_bus greet (Some 1%positive) VNull
                [VString "Jake"] my_machine)) =
    trace my_machine ++ [Applied VNull [VString "Jake"]; Finally 1%positive] /\
  read_field (mstore (snd (traceSync my_channel quiet_bus greet (Some 1%positive)
                             VNull [VString "Jake"] my_machine)))
    1%positive endMonotonicTime =
    Some (VBigInt (hrtime (store_at_exit my_channel quiet_bus greet
                             (Some 1%positive) VNull [VString "Jake"]
                             (mstore my_machine)))).
Proof.
  split; [reflexivity|]. split; [apply quiet_bus_subscribers|].
  destruct (unobserved_run_is_still_stamped my_channel quiet_bus greet
              (Some 1%positive) VNull [VString "Jake"] my_machine eq_refl
              (quiet_bus_subscribers my_channel))
    as (Htrace & Hend & _).
  split; [exact Htrace|exact Hend].
Defined.

Lemma greet_run_default_context :
  publishes my_channel my_bus = true /\
  heap (mstore my_machine) !! newContext_of None (mstore my_machine) = None /\
  exists post : list event,
    trace (snd (traceSync my_channel my_bus greet None VNull [VString "Jake"]
                  my_machine)) =
    trace my_machine ++
    Published start (VObject (newContext_of None (mstore my_machine)))
      {[ startMonotonicTime := VBigInt (hrtime (mstore my_machine)) ]}
    :: post.
Proof.
  split; [exact my_bus_publishes|].
  exact (default_context_is_new my_channel my_bus greet VNull [VString "Jake"]
           my_machine my_bus_publishes).
Defined.

Lemma start_only_is_served_on_quiet_bus :
  start_only start = Some mark_seen /\
  (exists (o : gmap string value) (post : list event),
     trace (snd (traceSync my_channel (subscribe my_channel quiet_bus start_only)
                   greet (Some 1%positive) VNull [VString "Jake"] my_machine)) =
       trace my_machine ++ Published start (VObject 1%positive) o :: post /\
     o !! startMonotonicTime = Some (VBigInt (hrtime (mstore my_machine)))).
Proof.
  split; [reflexivity|].
  exact (proj1 (subscribed_start_handler_is_served my_channel quiet_bus start_only
                  mark_seen greet (Some 1%positive) VNull [VString "Jake"]
                  my_machine eq_refl)).
Defined.

Lemma assertAllTelemetryFields_on_standing_clock :
  stamped 1000 1000
    {[ startMonotonicTime := VBigInt 1000; endMonotonicTime := VBigInt 1000;
       duration := VBigInt 0 ]} /\
  ~ assertAllTelemetryFields
      (Some {[ startMonotonicTime := VBigInt 1000; endMonotonicTime := VBigInt 1000;
               duration := VBigInt 0 ]}) =
    Some {[ startMonotonicTime := VBigInt 1000; endMonotonicTime := VBigInt 1000;
            duration := VBigInt 0 ]}.
Proof.
  assert (Hst : stamped 1000 1000
            {[ startMonotonicTime := VBigInt 1000; endMonotonicTime := VBigInt 1000;
               duration := VBigInt 0 ]}).
  { repeat split; vm_compute; congruence. }
  split; [exact Hst|].
  intros Hpass.
  destruct (assertAllTelemetryFields_wants_time_to_pass 1000 1000 _ Hst)
    as (_ & _ & Hiff).
  destruct (proj1 Hiff Hpass) as (_ & _ & Hlt). lia.
Defined.

(** The third test: the receiver [{}] gets its [first] from the call made
    through [traceSync], and the caller finds it there. *)
Example scenario_receiver :
  let r := traceSync my_channel my_bus doubleFirstAddAfter (Some 1%positive)
             (VObject 3%positive) [VNumber 2] receiver_machine in
  fst r = Normal (VNumber 4) /\
  read_field (mstore (snd r)) 3%positive "first" = Some (VNumber 2).
Proof. vm_compute. split; reflexivity. Qed.

(** A function that takes the reserved key for itself loses its result. *)
Example scenario_clobber :
  let r := traceSync my_channel my_bus clobber (Some 1%positive) VNull [] my_machine in
  fst r = Throw (VTypeError "Cannot mix BigInt and other types, use explicit conversions") /\
  map (observe [startMonotonicTime; endMonotonicTime; duration; "result"; "error"])
      (trace (snd r)) =
  [Some (start, VObject 1%positive, [Some (VBigInt 1000); None; None; None; None]);
   None; None;
   Some (error, VObject 1%positive,
         [Some (VString "mine"); Some (VBigInt 1000); None; None;
          Some (VTypeError "Cannot mix BigInt and other types, use explicit conversions")]);
   Some (end_, VObject 1%positive,
         [Some (VString "mine"); Some (VBigInt 1000); None; None;
          Some (VTypeError "Cannot mix BigInt and other types, use explicit conversions")])].
Proof. vm_compute. split; reflexivity. Qed.
